(** * Myco: the standardized Python benchmark suite

    A shallow embedding of [performance/python/benchmarks.py]: the timing
    primitive and [BenchmarkTimer], the two growable containers
    ([DynamicArray], [DynamicString]), [fibonacci], [bubble_sort], and the
    kernels and reports of [main], followed by the properties of the
    program that the specification states. *)

From Stdlib Require Import ZArith Lia Ascii.
From Stdlib Require Import Floats.SpecFloat.
From stdpp Require Import base list sorting strings pretty.
From Equations Require Import Equations.

Local Open Scope Z_scope.

(** ** Python primitives used by the program *)

(** [range(start, stop)]: empty when [stop <= start]. *)
Definition range (start stop : Z) : list Z := seqZ start (stop - start).

(** [len(l)] is a Python int. *)
Definition len {A} (l : list A) : Z := Z.of_nat (length l).

(** Python resolves a list index against the length: a negative index
    counts from the end, and anything outside [-n, n) raises IndexError
    ([None] here). *)
Definition norm_index (n index : Z) : option nat :=
  if decide (0 ≤ index < n) then Some (Z.to_nat index)
  else if decide (- n ≤ index < 0) then Some (Z.to_nat (n + index))
  else None.

(** [l[index]] *)
Definition list_getitem {A} (l : list A) (index : Z) : option A :=
  k ← norm_index (len l) index; l !! k.

(** [l[index] = value], giving the list after the store. *)
Definition list_setitem {A} (l : list A) (index : Z) (value : A) : option (list A) :=
  k ← norm_index (len l) index; Some (<[k:=value]> l).

(** A [for x in xs: body] loop whose body may raise: the first exception
    ends the loop. *)
Fixpoint for_in {S} (xs : list Z) (body : Z → S → option S) (s : S) : option S :=
  match xs with
  | [] => Some s
  | x :: xs' => s' ← body x s; for_in xs' body s'
  end.

(** ** Dynamic array implementation *)

Module DynamicArray.

Record t (A : Type) := mk { data : list A; capacity : Z }.
Arguments mk {A} _ _.
Arguments data {A} _.
Arguments capacity {A} _.

(** [__init__(self, initial_capacity=1000)] *)
Definition init {A} (initial_capacity : Z) : t A :=
  {| data := []; capacity := initial_capacity |}.

(** [push(self, value)] *)
Definition push {A} (self : t A) (value : A) : t A :=
  let data' := data self ++ [value] in
  {| data := data';
     capacity := if decide (len data' > capacity self)
                 then capacity self * 2 else capacity self |}.

(** [__len__(self)] *)
Definition length {A} (self : t A) : Z := len (data self).

(** [__getitem__(self, index)] *)
Definition getitem {A} (self : t A) (index : Z) : option A :=
  list_getitem (data self) index.

(** [__setitem__(self, index, value)] *)
Definition setitem {A} (self : t A) (index : Z) (value : A) : option (t A) :=
  data' ← list_setitem (data self) index value;
  Some {| data := data'; capacity := capacity self |}.

(** The states an array goes through under successive [push] calls. *)
Fixpoint push_trace {A} (self : t A) (values : list A) : list (t A) :=
  match values with
  | [] => []
  | v :: values' => let self' := push self v in self' :: push_trace self' values'
  end.

End DynamicArray.

(** ** Dynamic string implementation *)

Module DynamicString.

Record t := mk { data : string; capacity : Z }.

(** [__init__(self, initial_capacity=1000)] *)
Definition init (initial_capacity : Z) : t :=
  {| data := ""; capacity := initial_capacity |}.

(** [append(self, value)] *)
Definition append (self : t) (value : string) : t :=
  let data' := data self +:+ value in
  {| data := data';
     capacity := if decide (Z.of_nat (String.length data') > capacity self)
                 then capacity self * 2 else capacity self |}.

(** [__len__(self)] *)
Definition length (self : t) : Z := Z.of_nat (String.length (data self)).

(** [__str__(self)] *)
Definition str (self : t) : string := data self.

(** The states a string goes through under successive [append] calls. *)
Fixpoint append_trace (self : t) (fragments : list string) : list t :=
  match fragments with
  | [] => []
  | f :: fragments' =>
      let self' := append self f in self' :: append_trace self' fragments'
  end.

End DynamicString.

(** ** Fibonacci function *)

(** [fibonacci(n)]: the recursion is on [n - 1] and [n - 2] below [n > 1],
    so it is well founded on [Z.to_nat n]. *)
Equations? fibonacci (n : Z) : Z by wf (Z.to_nat n) lt :=
  fibonacci n with decide (n ≤ 1) => {
    | left _ := n ;
    | right _ := fibonacci (n - 1) + fibonacci (n - 2) }.
Proof. all: lia. Qed.

(** The same function with the interpreter's call stack made explicit:
    [depth] bounds the nesting of calls, and [None] is a stack that the
    recursion outgrew. *)
Fixpoint fibonacci_depth (depth : nat) (n : Z) : option Z :=
  match depth with
  | O => None
  | S depth' =>
      if decide (n ≤ 1) then Some n
      else a ← fibonacci_depth depth' (n - 1);
           b ← fibonacci_depth depth' (n - 2);
           Some (a + b)
  end.

(** ** Bubble sort *)

(** The body of the inner loop: compare [arr[j]] with [arr[j + 1]] and
    swap them when out of order. The tuple on the right of the swap is
    read before either store. *)
Definition bubble_step (j : Z) (arr : list Z) : option (list Z) :=
  a ← list_getitem arr j;
  b ← list_getitem arr (j + 1);
  if decide (a > b) then
    a' ← list_getitem arr (j + 1);
    b' ← list_getitem arr j;
    arr1 ← list_setitem arr j a';
    list_setitem arr1 (j + 1) b'
  else Some arr.

(** One pass of the outer loop: [for j in range(len(arr) - i - 1)]. *)
Definition bubble_pass (i : Z) (arr : list Z) : option (list Z) :=
  for_in (range 0 (len arr - i - 1)) bubble_step arr.

(** [bubble_sort(arr)]: the list after the call, or [None] if an index
    was out of range. *)
Definition bubble_sort (arr : list Z) : option (list Z) :=
  for_in (range 0 (len arr - 1)) bubble_pass arr.

(** ** Floats

    The program meets floating point in two places: [time.time() * 1000000]
    and [total_time / 1000] with its [.1f] formatting. A float is modelled
    by its exact value [(-1)^sign * mant * 2^exp], and every operation
    rounds the exact result to the nearest value with a 53-bit mantissa,
    ties to even, as binary64 does. The exponent range is not bounded:
    binary64 leaves this model only below [2^-1022] or from [2^1024] on,
    which neither a clock reading in seconds nor a total in microseconds
    reaches. *)

Module PyFloat.

Record t := mk { sign : bool; mant : Z; exp : Z }.

(** The integer nearest to [a / b] for [b > 0], ties to even. *)
Definition round_half_even (a b : Z) : Z :=
  let q := a / b in
  let r := a mod b in
  if decide (2 * r < b) then q
  else if decide (2 * r > b) then q + 1
  else if Z.even q then q else q + 1.

(** [a / b / 2^e], rounded to an integer. *)
Definition scaled (a b e : Z) : Z :=
  if decide (0 ≤ e) then round_half_even a (b * 2 ^ e)
  else round_half_even (a * 2 ^ (- e)) b.

(** [a / b < 2^k] *)
Definition below_pow2 (a b k : Z) : bool :=
  if decide (0 ≤ k) then bool_decide (a < b * 2 ^ k)
  else bool_decide (a * 2 ^ (- k) < b).

(** The exponent [e] with [2^52 <= a / b / 2^e < 2^53], for [a, b > 0]. *)
Definition exponent (a b : Z) : Z :=
  let e := Z.log2 a - Z.log2 b - 53 in
  if below_pow2 a b (e + 53) then e else e + 1.

(** The float nearest to [(-1)^s * a / b], for [a >= 0] and [b > 0]. *)
Definition of_ratio (s : bool) (a b : Z) : t :=
  if decide (a = 0) then mk s 0 0
  else
    let e := exponent a b in
    let m := scaled a b e in
    if decide (m = 2 ^ 53) then mk s (2 ^ 52) (e + 1) else mk s m e.

(** [float(k)] *)
Definition of_int (k : Z) : t := of_ratio (bool_decide (k < 0)) (Z.abs k) 1.

(** [a / b] on two ints, [b] not zero: the float nearest to the exact
    quotient. *)
Definition int_truediv (a b : Z) : t :=
  of_ratio (xorb (bool_decide (a < 0)) (bool_decide (b < 0))) (Z.abs a) (Z.abs b).

(** [x * y] *)
Definition mul (x y : t) : t :=
  let s := xorb (sign x) (sign y) in
  let m := mant x * mant y in
  let e := exp x + exp y in
  if decide (0 ≤ e) then of_ratio s (m * 2 ^ e) 1 else of_ratio s m (2 ^ (- e)).

(** [int(x)]: truncation towards zero. *)
Definition to_int (x : t) : Z :=
  let v := if decide (0 ≤ exp x) then mant x * 2 ^ exp x
           else mant x / 2 ^ (- exp x) in
  if sign x then - v else v.

(** The magnitude of [x] in tenths, rounded to an integer. *)
Definition tenths (x : t) : Z :=
  if decide (0 ≤ exp x) then 10 * mant x * 2 ^ exp x
  else round_half_even (10 * mant x) (2 ^ (- exp x)).

(** [f"{x:.1f}"] *)
Definition format_1f (x : t) : string :=
  let n := tenths x in
  (if sign x then "-" else "") +:+ pretty (n / 10) +:+ "." +:+ pretty (n mod 10).

(** The exact value of [x] as a fraction [num x / den x] of two integers,
    [den x > 0]. *)
Definition num (x : t) : Z :=
  (if sign x then - mant x else mant x) * 2 ^ Z.max 0 (exp x).

Definition den (x : t) : Z := 2 ^ Z.max 0 (- exp x).

(** [x <= y]: the exact values compared. *)
Definition le (x y : t) : Prop := num x * den y ≤ num y * den x.

#[global] Instance le_dec (x y : t) : Decision (le x y) :=
  decide (num x * den y ≤ num y * den x).

(** The mantissa is a magnitude, as in every float Python makes. *)
Definition wf (x : t) : Prop := 0 ≤ mant x.

(** The same value in the Standard Library's IEEE 754 datatype. *)
Definition to_spec (x : t) : spec_float :=
  match mant x with
  | Zpos m => S754_finite (sign x) m (exp x)
  | _ => S754_zero (sign x)
  end.

End PyFloat.

(** ** The world of a run: the wall clock and standard output *)

(** [clock] is what successive calls of [time.time()] return, [reads]
    counts the calls made so far, and [stdout] holds the text of each
    [print] call in order. *)
Record World := mkWorld { clock : nat → PyFloat.t; reads : nat; stdout : list string }.

(** A computation reads and writes the world, and returns or raises
    ([None]). *)
Definition M (A : Type) : Type := World → option A * World.

Definition ret {A} (a : A) : M A := λ w, (Some a, w).

Definition bind {A B} (m : M A) (k : A → M B) : M B :=
  λ w, match m w with
       | (Some a, w') => k a w'
       | (None, w') => (None, w')
       end.

(** A pure computation that may raise. *)
Definition lift {A} (o : option A) : M A := λ w, (o, w).

#[export] Instance M_ret : MRet M := @ret.
#[export] Instance M_bind : MBind M := λ A B k m, bind m k.

(** [time.time()] *)
Definition time_time : M PyFloat.t :=
  λ w, (Some (clock w (reads w)),
        {| clock := clock w; reads := S (reads w); stdout := stdout w |}).

(** [print(s)] *)
Definition print (s : string) : M unit :=
  λ w, (Some tt, {| clock := clock w; reads := reads w; stdout := stdout w ++ [s] |}).

Definition newline : string := String "010"%char "".

(** [int(t * 1000000)] *)
Definition microseconds (t : PyFloat.t) : Z :=
  PyFloat.to_int (PyFloat.mul t (PyFloat.of_int 1000000)).

(** High-precision timing function *)
Definition get_time_microseconds : M Z :=
  t ← time_time; ret (microseconds t).

(** ** Benchmark timing structure *)

Module BenchmarkTimer.

Record t := mk { start_time : Z; end_time : Z; duration : Z }.

(** [__init__(self)] *)
Definition init : t := {| start_time := 0; end_time := 0; duration := 0 |}.

(** [start(self)] *)
Definition start (self : t) : M t :=
  now ← get_time_microseconds;
  ret {| start_time := now; end_time := end_time self; duration := duration self |}.

(** [end(self)]: the duration returned, and the timer after the call. *)
Definition end_ (self : t) : M (Z * t) :=
  now ← get_time_microseconds;
  let self' := {| start_time := start_time self; end_time := now;
                  duration := now - start_time self |} in
  ret (duration self', self').

End BenchmarkTimer.

(** ** The kernels of [main] *)

(** Benchmark 1: [sum_val] after the loop over [range(1, 1000001)]. *)
Definition simple_loop_upto (stop : Z) : Z :=
  foldl (λ sum_val i, sum_val + i) 0 (range 1 stop).

Definition simple_loop : Z := simple_loop_upto 1000001.

(** Benchmark 8: the array handed to [bubble_sort]. *)
Definition sort_input_upto (stop : Z) : list Z :=
  foldl (λ sort_arr i, sort_arr ++ [10000 - i]) [] (range 1 stop).

Definition sort_input : list Z := sort_input_upto 10001.

(** Benchmark 10: [mem_arr] after the loop over [range(1, stop)]. *)
Definition memory_step (mem_arr : DynamicArray.t Z) (i : Z) : DynamicArray.t Z :=
  let mem_arr := DynamicArray.push mem_arr i in
  if decide (DynamicArray.length mem_arr > 5000)
  then DynamicArray.init 1000 else mem_arr.

Definition memory_loop_upto (stop : Z) : DynamicArray.t Z :=
  foldl memory_step (DynamicArray.init 1000) (range 1 stop).

Definition memory_loop : DynamicArray.t Z := memory_loop_upto 10001.

(** Benchmark 2: [(str_result, total_len)] after the loop. *)
Definition string_concat_step (st : DynamicString.t * Z) (i : Z) : DynamicString.t * Z :=
  let '(str_result, total_len) := st in
  let num_str := pretty i in
  (DynamicString.append str_result num_str,
   total_len + Z.of_nat (String.length num_str)).

Definition string_concat : DynamicString.t * Z :=
  foldl string_concat_step (DynamicString.init 1000, 0) (range 1 10001).

(** Benchmark 3: [arr] after the loop. *)
Definition array_creation : DynamicArray.t Z :=
  foldl DynamicArray.push (DynamicArray.init 1000) (range 1 100001).

(** Benchmark 4: [result] after the loop; [//] is floor division. *)
Definition math_operations : Z :=
  foldl (λ result i, result + (i * i) `div` 2) 0 (range 1 100001).

(** Benchmark 5: [result] after the loop, starting from its value after
    benchmark 4. *)
Definition test_func (x : Z) : Z := x * x.

Definition function_calls (result : Z) : Z :=
  foldl (λ _ i, test_func i) result (range 1 100001).

(** Benchmark 6: [nested_sum] after the two loops. *)
Definition nested_loop : Z :=
  foldl (λ nested_sum i,
           foldl (λ nested_sum j, nested_sum + (i + j)) nested_sum (range 1 1001))
        0 (range 1 1001).

(** [needle in haystack] on strings. *)
Fixpoint str_in (needle haystack : string) : bool :=
  String.prefix needle haystack ||
  match haystack with
  | EmptyString => false
  | String _ rest => str_in needle rest
  end.

(** Benchmark 7: [search_text] after the first loop, [search_count] after
    the second. *)
Definition search_text : DynamicString.t :=
  foldl (λ search_text _, DynamicString.append search_text "abc")
        (DynamicString.init 1000) (range 1 100001).

Definition search_count : Z :=
  foldl (λ search_count _,
           if str_in "abc" (DynamicString.str search_text)
           then search_count + 1 else search_count)
        0 (range 1 1001).

(** ** [main] *)

Definition main : M unit :=
  print "=== PYTHON STANDARDIZED BENCHMARK SUITE ===" ;;
  print ("Testing identical operations across all languages" +:+ newline) ;;
  let timer := BenchmarkTimer.init in
  (* BENCHMARK 1: Simple Loop (1M iterations) *)
  timer ← BenchmarkTimer.start timer;
  let sum_val := simple_loop in
  '(loop_time, timer) ← BenchmarkTimer.end_ timer;
  print ("Simple Loop (1M): " +:+ pretty loop_time +:+ " microseconds, Sum: "
         +:+ pretty sum_val) ;;
  (* BENCHMARK 2: String Concatenation (10K) *)
  timer ← BenchmarkTimer.start timer;
  let '(str_result, total_len) := string_concat in
  '(string_time, timer) ← BenchmarkTimer.end_ timer;
  print ("String Concatenation (10K): " +:+ pretty string_time
         +:+ " microseconds, Length: " +:+ pretty total_len) ;;
  (* BENCHMARK 3: Array Creation (100K) *)
  timer ← BenchmarkTimer.start timer;
  let arr := array_creation in
  '(array_time, timer) ← BenchmarkTimer.end_ timer;
  print ("Array Creation (100K): " +:+ pretty array_time
         +:+ " microseconds, Length: " +:+ pretty (DynamicArray.length arr)) ;;
  (* BENCHMARK 4: Math Operations (100K) *)
  timer ← BenchmarkTimer.start timer;
  let result := math_operations in
  '(math_time, timer) ← BenchmarkTimer.end_ timer;
  print ("Math Operations (100K): " +:+ pretty math_time
         +:+ " microseconds, Result: " +:+ pretty result) ;;
  (* BENCHMARK 5: Function Calls (100K) *)
  timer ← BenchmarkTimer.start timer;
  let result := function_calls result in
  '(func_time, timer) ← BenchmarkTimer.end_ timer;
  print ("Function Calls (100K): " +:+ pretty func_time +:+ " microseconds") ;;
  (* BENCHMARK 6: Nested Loop (1K x 1K) *)
  timer ← BenchmarkTimer.start timer;
  let nested_sum := nested_loop in
  '(nested_time, timer) ← BenchmarkTimer.end_ timer;
  print ("Nested Loop (1K x 1K): " +:+ pretty nested_time
         +:+ " microseconds, Sum: " +:+ pretty nested_sum) ;;
  (* BENCHMARK 7: String Search (100K) *)
  timer ← BenchmarkTimer.start timer;
  let search_count := search_count in
  '(search_time, timer) ← BenchmarkTimer.end_ timer;
  print ("String Search (100K): " +:+ pretty search_time
         +:+ " microseconds, Found: " +:+ pretty search_count) ;;
  (* BENCHMARK 8: Array Sorting (10K) *)
  timer ← BenchmarkTimer.start timer;
  sort_arr ← lift (bubble_sort sort_input);
  '(sort_time, timer) ← BenchmarkTimer.end_ timer;
  first ← lift (list_getitem sort_arr 0);
  last ← lift (list_getitem sort_arr 9999);
  print ("Array Sorting (10K): " +:+ pretty sort_time +:+ " microseconds, First: "
         +:+ pretty first +:+ ", Last: " +:+ pretty last) ;;
  (* BENCHMARK 9: Recursive Functions (1K) *)
  timer ← BenchmarkTimer.start timer;
  let fib_result := fibonacci 20 in
  '(recursive_time, timer) ← BenchmarkTimer.end_ timer;
  print ("Recursive Functions (1K): " +:+ pretty recursive_time
         +:+ " microseconds, Fib(20): " +:+ pretty fib_result) ;;
  (* BENCHMARK 10: Memory Operations (10K) *)
  timer ← BenchmarkTimer.start timer;
  let mem_arr := memory_loop in
  '(memory_time, timer) ← BenchmarkTimer.end_ timer;
  print ("Memory Operations (10K): " +:+ pretty memory_time
         +:+ " microseconds, Final Length: " +:+ pretty (DynamicArray.length mem_arr)) ;;
  print (newline +:+ "=== PYTHON BENCHMARK RESULTS ===") ;;
  print ("Simple Loop (1M): " +:+ pretty loop_time +:+ " microseconds") ;;
  print ("String Concatenation (10K): " +:+ pretty string_time +:+ " microseconds") ;;
  print ("Array Creation (100K): " +:+ pretty array_time +:+ " microseconds") ;;
  print ("Math Operations (100K): " +:+ pretty math_time +:+ " microseconds") ;;
  print ("Function Calls (100K): " +:+ pretty func_time +:+ " microseconds") ;;
  print ("Nested Loop (1K x 1K): " +:+ pretty nested_time +:+ " microseconds") ;;
  print ("String Search (100K): " +:+ pretty search_time +:+ " microseconds") ;;
  print ("Array Sorting (10K): " +:+ pretty sort_time +:+ " microseconds") ;;
  print ("Recursive Functions (1K): " +:+ pretty recursive_time +:+ " microseconds") ;;
  print ("Memory Operations (10K): " +:+ pretty memory_time +:+ " microseconds") ;;
  let total_time := loop_time + string_time + array_time + math_time + func_time +
                    nested_time + search_time + sort_time + recursive_time + memory_time in
  print (newline +:+ "Total Benchmark Time: " +:+ pretty total_time +:+ " microseconds") ;;
  print ("Total Benchmark Time: " +:+ PyFloat.format_1f (PyFloat.int_truediv total_time 1000)
         +:+ " milliseconds").

(** Standard output of a run of [main] started with the given clock. *)
Definition main_stdout (clock : nat → PyFloat.t) : list string :=
  stdout (snd (main {| clock := clock; reads := 0; stdout := [] |})).

(** ** Reading the output of a run *)

(** The duration that kernel [k] (1 to 10) is reported with: the
    difference of the two clock readings taken around it. *)
Definition duration_of (clock : nat → PyFloat.t) (k : nat) : Z :=
  microseconds (clock (2 * k - 1)%nat) - microseconds (clock (2 * k - 2)%nat).

Definition total_of (clock : nat → PyFloat.t) : Z :=
  duration_of clock 1 + duration_of clock 2 + duration_of clock 3 +
  duration_of clock 4 + duration_of clock 5 + duration_of clock 6 +
  duration_of clock 7 + duration_of clock 8 + duration_of clock 9 +
  duration_of clock 10.

(** A report of the form
    ["<Label>: <duration> microseconds, <AuxiliaryLabel>: <value>"]. *)
Definition report_form (line : string) (duration : Z) : Prop :=
  ∃ label aux_label value : string,
    line = label +:+ ": " +:+ pretty duration +:+ " microseconds, "
           +:+ aux_label +:+ ": " +:+ value.

(** The report ["<Label>: <duration> microseconds, <AuxiliaryLabel>: <value>"]
    for a given label, duration, auxiliary label and value text. *)
Definition report_line (label : string) (duration : Z) (aux_label value : string) : string :=
  label +:+ ": " +:+ pretty duration +:+ " microseconds, " +:+ aux_label +:+ ": " +:+ value.

(** Whether a text holds a comma. *)
Fixpoint has_comma (s : string) : bool :=
  match s with
  | EmptyString => false
  | String a rest => bool_decide (a = ","%char) || has_comma rest
  end.

(** A wall clock that is set back between two readings: 2.0 s, then
    1.0 s from then on. *)
Definition backward_clock : nat → PyFloat.t :=
  λ k, match k with
       | O => PyFloat.mk false 2 0
       | S _ => PyFloat.mk false 1 0
       end.

(** A wall clock that moves forward: 1.5 s, then 2.25 s from then on. *)
Definition forward_clock : nat → PyFloat.t :=
  λ k, match k with
       | O => PyFloat.mk false 3 (-1)
       | S _ => PyFloat.mk false 9 (-2)
       end.

(** The clock that always reads 0.0. *)
Definition frozen_clock : nat → PyFloat.t := λ _, PyFloat.mk false 0 0.

(** * Properties *)

(** ** Simple loop *)

Lemma simple_loop_gauss (n : nat) :
  2 * simple_loop_upto (1 + Z.of_nat n) = Z.of_nat n * (Z.of_nat n + 1).
Proof.
  unfold simple_loop_upto, range.
  replace (1 + Z.of_nat n - 1) with (Z.of_nat n) by lia.
  induction n as [|n IH].
  - reflexivity.
  - rewrite seqZ_S, foldl_app. cbn [foldl]. lia.
Qed.

(** C7. The Simple Loop kernel sums the integers 1 through 1,000,000 and
    ends with [sum_val = 500000500000]; the value is that of a closed
    term, the same on every run. *)
Theorem simple_loop_value : simple_loop = 500000500000.
Proof.
  unfold simple_loop.
  pose proof (simple_loop_gauss (Z.to_nat 1000000)) as H.
  rewrite Z2Nat.id in H by lia.
  change (1 + 1000000) with 1000001 in H. lia.
Qed.

(** ** Fibonacci *)

Lemma fibonacci_step (n : Z) :
  fibonacci n = if decide (n ≤ 1) then n else fibonacci (n - 1) + fibonacci (n - 2).
Proof. rewrite fibonacci_equation_1. destruct (decide (n ≤ 1)); reflexivity. Qed.

Lemma fibonacci_depth_enough (depth : nat) :
  ∀ n : Z, (Z.to_nat n < depth)%nat → fibonacci_depth depth n = Some (fibonacci n).
Proof.
  induction depth as [|depth IH]; intros n Hn; [lia|].
  cbn [fibonacci_depth]. rewrite (fibonacci_step n).
  destruct (decide (n ≤ 1)) as [Hle|Hgt]; [reflexivity|].
  rewrite (IH (n - 1)), (IH (n - 2)) by lia. reflexivity.
Qed.

(** C9. [fibonacci] returns on every integer: a call stack of
    [Z.to_nat n + 1] frames is enough. For [n <= 1] the result is [n]
    itself (negative inputs included), and for [n > 1] it is
    [fibonacci (n - 1) + fibonacci (n - 2)], both arguments being strictly
    below [n] (and their measures below that of [n]). *)
Theorem fibonacci_terminates (n : Z) :
  fibonacci_depth (S (Z.to_nat n)) n = Some (fibonacci n) ∧
  (n ≤ 1 → fibonacci n = n) ∧
  (n > 1 →
     fibonacci n = fibonacci (n - 1) + fibonacci (n - 2) ∧
     n - 1 < n ∧ n - 2 < n ∧
     (Z.to_nat (n - 1) < Z.to_nat n)%nat ∧ (Z.to_nat (n - 2) < Z.to_nat n)%nat).
Proof.
  split; [apply fibonacci_depth_enough; lia|].
  rewrite (fibonacci_step n).
  split; intros Hn; destruct (decide (n ≤ 1)); lia.
Qed.

Lemma fibonacci_terminates_witness :
  fibonacci (-5) = -5 ∧ fibonacci 0 = 0 ∧ fibonacci 1 = 1 ∧
  fibonacci 20 = fibonacci 19 + fibonacci 18.
Proof.
  split; [|split; [|split]].
  - apply (proj1 (proj2 (fibonacci_terminates (-5)))). lia.
  - apply (proj1 (proj2 (fibonacci_terminates 0))). lia.
  - apply (proj1 (proj2 (fibonacci_terminates 1))). lia.
  - apply (proj2 (proj2 (fibonacci_terminates 20))). lia.
Defined.

(** ** Python list indexing *)

Lemma norm_index_nonneg (n index : Z) :
  0 ≤ index < n → norm_index n index = Some (Z.to_nat index).
Proof. intros H. unfold norm_index. rewrite decide_True by done. done. Qed.

Lemma list_getitem_nonneg {A} (l : list A) (index : Z) :
  0 ≤ index < len l → list_getitem l index = l !! Z.to_nat index.
Proof. intros H. unfold list_getitem. by rewrite norm_index_nonneg. Qed.

Lemma list_setitem_nonneg {A} (l : list A) (index : Z) (v : A) :
  0 ≤ index < len l → list_setitem l index v = Some (<[Z.to_nat index:=v]> l).
Proof. intros H. unfold list_setitem. by rewrite norm_index_nonneg. Qed.

Lemma len_app {A} (l1 l2 : list A) : len (l1 ++ l2) = len l1 + len l2.
Proof. unfold len. rewrite length_app. lia. Qed.

Lemma len_nonneg {A} (l : list A) : 0 ≤ len l.
Proof. unfold len. lia. Qed.

(** ** DynamicArray.push *)

Lemma push_length {A} (arr : DynamicArray.t A) (v : A) :
  DynamicArray.length (DynamicArray.push arr v) = DynamicArray.length arr + 1.
Proof. unfold DynamicArray.length, DynamicArray.push. cbn. by rewrite len_app. Qed.

(** C10. [push(v)] appends [v] at the end of the array: the length grows
    by exactly one, [v] is read back at the last index, the element at
    every position [0 <= i < len] that was valid before is unchanged, and
    of the two fields only [data] (now the old data followed by [v]) and
    possibly [capacity] (kept or doubled) change. *)
Theorem push_appends {A} (arr : DynamicArray.t A) (v : A) :
  let arr' := DynamicArray.push arr v in
  DynamicArray.length arr' = DynamicArray.length arr + 1 ∧
  DynamicArray.getitem arr' (DynamicArray.length arr' - 1) = Some v ∧
  (∀ i : Z, 0 ≤ i < DynamicArray.length arr →
     DynamicArray.getitem arr' i = DynamicArray.getitem arr i) ∧
  DynamicArray.data arr' = DynamicArray.data arr ++ [v] ∧
  (DynamicArray.capacity arr' = DynamicArray.capacity arr ∨
   DynamicArray.capacity arr' = DynamicArray.capacity arr * 2).
Proof.
  intros arr'. split; [apply push_length|].
  split; [|split; [|split]].
  - unfold DynamicArray.getitem. rewrite list_getitem_nonneg.
    + subst arr'. rewrite push_length. cbn.
      apply list_lookup_middle. unfold DynamicArray.length, len. lia.
    + subst arr'. rewrite push_length.
      fold (DynamicArray.length (DynamicArray.push arr v)).
      rewrite push_length. pose proof (len_nonneg (DynamicArray.data arr)).
      unfold DynamicArray.length. lia.
  - intros i Hi. unfold DynamicArray.getitem.
    rewrite !list_getitem_nonneg.
    + subst arr'. cbn. apply lookup_app_l.
      unfold DynamicArray.length, len in Hi. lia.
    + exact Hi.
    + fold (DynamicArray.length arr'). subst arr'. rewrite push_length. lia.
  - reflexivity.
  - subst arr'. unfold DynamicArray.push. cbn. case_decide; auto.
Qed.

(** The index [-1] now reads the pushed value: negative indices address
    the same positions from the new end. *)
Lemma push_last_negative_index {A} (arr : DynamicArray.t A) (v : A) :
  DynamicArray.getitem (DynamicArray.push arr v) (-1) = Some v.
Proof.
  unfold DynamicArray.getitem, list_getitem, norm_index. cbn [DynamicArray.push DynamicArray.data].
  pose proof (len_nonneg (DynamicArray.data arr)) as Hn.
  rewrite len_app. change (len [v]) with 1.
  rewrite decide_False, decide_True by lia.
  cbn [mbind option_bind]. apply list_lookup_middle. unfold len. lia.
Qed.

(** ** Capacity bookkeeping of the two containers *)

Lemma string_length_app (s1 s2 : string) :
  String.length (s1 +:+ s2) = (String.length s1 + String.length s2)%nat.
Proof. induction s1 as [|a s1 IH]; simpl; [reflexivity|]. by f_equal. Qed.

Lemma push_capacity {A} (arr : DynamicArray.t A) (v : A) :
  1 ≤ DynamicArray.capacity arr →
  DynamicArray.length arr ≤ DynamicArray.capacity arr →
  DynamicArray.capacity arr ≤ DynamicArray.capacity (DynamicArray.push arr v) ∧
  DynamicArray.length (DynamicArray.push arr v)
    ≤ DynamicArray.capacity (DynamicArray.push arr v).
Proof.
  intros Hc Hl. rewrite push_length.
  unfold DynamicArray.push, DynamicArray.length in *. cbn.
  rewrite len_app. change (len [v]) with 1. case_decide; lia.
Qed.

Lemma push_trace_capacity {A} (values : list A) :
  ∀ (arr : DynamicArray.t A) (k : nat) (s s' : DynamicArray.t A),
    1 ≤ DynamicArray.capacity arr →
    DynamicArray.length arr ≤ DynamicArray.capacity arr →
    (arr :: DynamicArray.push_trace arr values) !! k = Some s →
    (arr :: DynamicArray.push_trace arr values) !! S k = Some s' →
    DynamicArray.capacity s ≤ DynamicArray.capacity s' ∧
    DynamicArray.length s' ≤ DynamicArray.capacity s'.
Proof.
  induction values as [|v values IH]; intros arr k s s' Hc Hl Hs Hs'.
  - by destruct k.
  - destruct (push_capacity arr v Hc Hl) as [Hmono Hcov].
    destruct k as [|k].
    + cbn in Hs, Hs'. injection Hs as <-. injection Hs' as <-. done.
    + cbn in Hs, Hs'. eapply (IH (DynamicArray.push arr v) k); [lia|done..].
Qed.

Lemma append_length (s : DynamicString.t) (f : string) :
  DynamicString.length (DynamicString.append s f)
  = DynamicString.length s + Z.of_nat (String.length f).
Proof.
  unfold DynamicString.length, DynamicString.append. cbn.
  rewrite string_length_app. lia.
Qed.

Lemma append_capacity_mono (s : DynamicString.t) (f : string) :
  0 ≤ DynamicString.capacity s →
  DynamicString.capacity s ≤ DynamicString.capacity (DynamicString.append s f).
Proof. intros Hc. unfold DynamicString.append. cbn. case_decide; lia. Qed.

(** One doubling covers the new length as long as the fragment is no
    longer than the capacity in force. *)
Lemma append_capacity_covers (s : DynamicString.t) (f : string) :
  DynamicString.length s ≤ DynamicString.capacity s →
  Z.of_nat (String.length f) ≤ DynamicString.capacity s →
  DynamicString.length (DynamicString.append s f)
    ≤ DynamicString.capacity (DynamicString.append s f).
Proof.
  intros Hl Hf. rewrite append_length.
  unfold DynamicString.append, DynamicString.length in *. cbn.
  rewrite string_length_app. case_decide; lia.
Qed.

Lemma append_trace_mono (fragments : list string) :
  ∀ (str : DynamicString.t) (k : nat) (s s' : DynamicString.t),
    0 ≤ DynamicString.capacity str →
    (str :: DynamicString.append_trace str fragments) !! k = Some s →
    (str :: DynamicString.append_trace str fragments) !! S k = Some s' →
    DynamicString.capacity s ≤ DynamicString.capacity s'.
Proof.
  induction fragments as [|f fragments IH]; intros str k s s' Hc Hs Hs'.
  - by destruct k.
  - pose proof (append_capacity_mono str f Hc) as Hmono.
    destruct k as [|k]; cbn in Hs, Hs'.
    + injection Hs as <-. injection Hs' as <-. done.
    + eapply (IH (DynamicString.append str f) k); [lia|done..].
Qed.

Lemma append_trace_covers (c : Z) (fragments : list string) :
  ∀ (str : DynamicString.t) (s' : DynamicString.t),
    0 ≤ c ≤ DynamicString.capacity str →
    DynamicString.length str ≤ DynamicString.capacity str →
    Forall (λ f, Z.of_nat (String.length f) ≤ c) fragments →
    s' ∈ DynamicString.append_trace str fragments →
    DynamicString.length s' ≤ DynamicString.capacity s'.
Proof.
  induction fragments as [|f fragments IH]; intros str s' Hc Hl Hfs Hin.
  - by apply elem_of_nil in Hin.
  - apply Forall_cons in Hfs as [Hf Hfs].
    pose proof (append_capacity_mono str f ltac:(lia)) as Hmono.
    pose proof (append_capacity_covers str f Hl ltac:(lia)) as Hcov.
    cbn in Hin. apply elem_of_cons in Hin as [->|Hin]; [done|].
    apply (IH (DynamicString.append str f)); [lia|done..].
Qed.

(** C4, as stated, fails for [DynamicString]: [append] doubles the
    capacity at most once, so a fragment longer than the capacity leaves
    it below the length. With initial capacity 1, appending ["abc"] ends
    with capacity 2 and length 3. *)
Lemma string_capacity_below_length :
  ¬ (∀ (c : Z) (fragments : list string),
       1 ≤ c →
       ∀ s : DynamicString.t,
         s ∈ DynamicString.append_trace (DynamicString.init c) fragments →
         DynamicString.length s ≤ DynamicString.capacity s).
Proof.
  intros H.
  specialize (H 1 ["abc"] ltac:(lia)
                (DynamicString.append (DynamicString.init 1) "abc")
                ltac:(apply list_elem_of_here)).
  vm_compute in H. by apply H.
Qed.

(** C4 (amended). From any initial capacity [c >= 1], along every
    sequence of [push] calls on a [DynamicArray] the capacity never
    decreases and, after each push's doubling check, is at least the
    length. Along every sequence of [append] calls on a [DynamicString]
    the capacity never decreases; it is at least the length after each
    append provided no fragment is longer than the initial capacity. *)
Theorem capacity_doubling_invariant {A} (c : Z) (values : list A) (fragments : list string) :
  1 ≤ c →
  (∀ (k : nat) (s s' : DynamicArray.t A),
     (DynamicArray.init c :: DynamicArray.push_trace (DynamicArray.init c) values) !! k = Some s →
     (DynamicArray.init c :: DynamicArray.push_trace (DynamicArray.init c) values) !! S k = Some s' →
     DynamicArray.capacity s ≤ DynamicArray.capacity s' ∧
     DynamicArray.length s' ≤ DynamicArray.capacity s') ∧
  (∀ (k : nat) (s s' : DynamicString.t),
     (DynamicString.init c :: DynamicString.append_trace (DynamicString.init c) fragments) !! k = Some s →
     (DynamicString.init c :: DynamicString.append_trace (DynamicString.init c) fragments) !! S k = Some s' →
     DynamicString.capacity s ≤ DynamicString.capacity s') ∧
  (Forall (λ f, Z.of_nat (String.length f) ≤ c) fragments →
   ∀ s' : DynamicString.t,
     s' ∈ DynamicString.append_trace (DynamicString.init c) fragments →
     DynamicString.length s' ≤ DynamicString.capacity s').
Proof.
  intros Hc. split; [|split].
  - intros k s s'. apply push_trace_capacity; cbn; [lia|].
    unfold DynamicArray.length, len. cbn. lia.
  - intros k s s'. apply append_trace_mono. cbn. lia.
  - intros Hfs s'. apply (append_trace_covers c); cbn; [lia| |done].
    unfold DynamicString.length. cbn. lia.
Qed.

Lemma capacity_doubling_invariant_witness :
  let arr := DynamicArray.init 2 in
  let str := DynamicString.init 2 in
  1 ≤ 2 ∧
  (∀ (k : nat) (s s' : DynamicArray.t Z),
     (arr :: DynamicArray.push_trace arr [10; 20; 30]) !! k = Some s →
     (arr :: DynamicArray.push_trace arr [10; 20; 30]) !! S k = Some s' →
     DynamicArray.capacity s ≤ DynamicArray.capacity s' ∧
     DynamicArray.length s' ≤ DynamicArray.capacity s') ∧
  (∀ (k : nat) (s s' : DynamicString.t),
     (str :: DynamicString.append_trace str ["ab"; "c"; "de"]) !! k = Some s →
     (str :: DynamicString.append_trace str ["ab"; "c"; "de"]) !! S k = Some s' →
     DynamicString.capacity s ≤ DynamicString.capacity s') ∧
  (Forall (λ f, Z.of_nat (String.length f) ≤ 2) ["ab"; "c"; "de"] →
   ∀ s' : DynamicString.t,
     s' ∈ DynamicString.append_trace str ["ab"; "c"; "de"] →
     DynamicString.length s' ≤ DynamicString.capacity s').
Proof.
  split; [lia|].
  apply (capacity_doubling_invariant (A:=Z) 2 [10; 20; 30] ["ab"; "c"; "de"]). lia.
Defined.

(** ** Allocation churn *)

Lemma memory_step_length (mem_arr : DynamicArray.t Z) (i : Z) :
  DynamicArray.length (memory_step mem_arr i)
  = if decide (DynamicArray.length mem_arr + 1 > 5000) then 0
    else DynamicArray.length mem_arr + 1.
Proof.
  unfold memory_step. rewrite push_length.
  case_decide; [reflexivity|apply push_length].
Qed.

(** After [n] pushes the container holds [n mod 5001] elements: the reset
    fires on the push that takes the length to 5001. *)
Lemma memory_loop_length (n : nat) :
  DynamicArray.length (memory_loop_upto (1 + Z.of_nat n)) = Z.of_nat n mod 5001.
Proof.
  unfold memory_loop_upto, range.
  replace (1 + Z.of_nat n - 1) with (Z.of_nat n) by lia.
  induction n as [|n IH]; [reflexivity|].
  rewrite seqZ_S, foldl_app. cbn [foldl].
  rewrite memory_step_length, IH.
  pose proof (Z.mod_pos_bound (Z.of_nat n) 5001 ltac:(lia)) as Hb.
  pose proof (Z.div_mod (Z.of_nat n) 5001 ltac:(lia)) as Hdm.
  case_decide.
  - apply Z.mod_unique_pos with (q := Z.of_nat n / 5001 + 1); lia.
  - apply Z.mod_unique_pos with (q := Z.of_nat n / 5001); lia.
Qed.

Lemma memory_loop_final : DynamicArray.length memory_loop = 4999.
Proof.
  unfold memory_loop.
  pose proof (memory_loop_length (Z.to_nat 10000)) as H.
  rewrite Z2Nat.id in H by lia. exact H.
Qed.

(** C2, as stated, fails: the final length is not 5000. The reset test is
    [len(mem_arr) > 5000], so the container is discarded on push 5001, and
    pushes 5002 to 10000 leave 4999 elements. *)
Lemma memory_loop_not_5000 :
  ¬ (1 ≤ DynamicArray.length memory_loop ≤ 5000 ∧
     DynamicArray.length memory_loop = 5000).
Proof. rewrite memory_loop_final. lia. Qed.

(** C2 (amended). After the full loop pushing 1..10,000 with the reset
    rule, the final container's length lies in [1, 5000] and equals
    exactly 4999. *)
Theorem memory_loop_final_length :
  1 ≤ DynamicArray.length memory_loop ≤ 5000 ∧
  DynamicArray.length memory_loop = 4999.
Proof. rewrite memory_loop_final. lia. Qed.

(** ** Bubble sort *)

Lemma list_getitem_middle {A} (pre post : list A) (x : A) :
  list_getitem (pre ++ x :: post) (len pre) = Some x.
Proof.
  rewrite list_getitem_nonneg.
  - apply list_lookup_middle. unfold len. lia.
  - rewrite len_app. unfold len. cbn [length]. lia.
Qed.

Lemma list_setitem_middle {A} (pre post : list A) (x y : A) :
  list_setitem (pre ++ x :: post) (len pre) y = Some (pre ++ y :: post).
Proof.
  rewrite list_setitem_nonneg.
  - f_equal. unfold len. rewrite Nat2Z.id.
    rewrite <- (Nat.add_0_r (length pre)). by rewrite insert_app_r.
  - rewrite len_app. unfold len. cbn [length]. lia.
Qed.

Lemma len_snoc {A} (pre : list A) (x : A) : len (pre ++ [x]) = len pre + 1.
Proof. by rewrite len_app. Qed.

Lemma list_getitem_middle_next {A} (pre post : list A) (x y : A) :
  list_getitem (pre ++ x :: y :: post) (len pre + 1) = Some y.
Proof.
  rewrite <- (len_snoc pre x), (cons_middle x pre (y :: post)), (app_assoc pre [x]).
  apply list_getitem_middle.
Qed.

Lemma list_setitem_middle_next {A} (pre post : list A) (x y z : A) :
  list_setitem (pre ++ x :: y :: post) (len pre + 1) z = Some (pre ++ x :: z :: post).
Proof.
  rewrite <- (len_snoc pre x), (cons_middle x pre (y :: post)), (app_assoc pre [x]).
  rewrite list_setitem_middle. by rewrite <- app_assoc.
Qed.

(** One comparison puts the smaller of two neighbours first. *)
Lemma bubble_step_middle (pre post : list Z) (x y : Z) :
  bubble_step (len pre) (pre ++ x :: y :: post)
  = Some (pre ++ Z.min x y :: Z.max x y :: post).
Proof.
  unfold bubble_step.
  rewrite list_getitem_middle, list_getitem_middle_next.
  cbn [mbind option_bind].
  case_decide as Hxy.
  - rewrite list_setitem_middle. cbn [mbind option_bind].
    rewrite list_setitem_middle_next.
    by rewrite Z.min_r, Z.max_l by lia.
  - by rewrite Z.min_l, Z.max_r by lia.
Qed.

(** The inner loop carries the largest element seen so far to the right:
    started on [pre ++ x :: post1 ++ post2] with [x] above all of [pre],
    the steps at positions [len pre ..] along [post1] leave [post2]
    untouched and end with the maximum just before it. *)
Lemma bubble_steps_carry (post1 : list Z) :
  ∀ (pre : list Z) (x : Z) (post2 : list Z),
    Forall (λ a, a ≤ x) pre →
    ∃ (pre' : list Z) (x' : Z),
      for_in (seqZ (len pre) (len post1)) bubble_step (pre ++ x :: post1 ++ post2)
      = Some (pre' ++ x' :: post2) ∧
      length pre' = (length pre + length post1)%nat ∧
      Forall (λ a, a ≤ x') pre' ∧
      pre' ++ [x'] ≡ₚ pre ++ x :: post1.
Proof.
  induction post1 as [|y post1 IH]; intros pre x post2 Hpre.
  - exists pre, x. rewrite seqZ_nil by done. cbn [for_in app length].
    rewrite Nat.add_0_r. split_and!; [done|done|done|].
    by rewrite <- Permutation_middle, (comm _ pre).
  - rewrite seqZ_cons by (unfold len; cbn [length]; lia).
    cbn [for_in]. rewrite <- app_comm_cons, bubble_step_middle.
    cbn [mbind option_bind].
    destruct (IH (pre ++ [Z.min x y]) (Z.max x y) post2) as (pre' & x' & Hrun & Hlen & Hle & Hperm).
    { apply Forall_app. split.
      - eapply Forall_impl; [exact Hpre|]. intros a Ha. cbn in Ha. lia.
      - apply Forall_singleton. lia. }
    exists pre', x'. split_and!.
    + rewrite <- Hrun. f_equal.
      * f_equal; [by rewrite len_snoc|unfold len; cbn [length]; lia].
      * by rewrite <- app_assoc.
    + rewrite Hlen, length_app. cbn [length]. lia.
    + done.
    + rewrite Hperm, <- app_assoc. cbn [app].
      apply Permutation_app_head.
      destruct (Z.min_spec x y) as [[? ->]|[? ->]];
        destruct (Z.max_spec x y) as [[? ->]|[? ->]];
        try lia; [done|apply perm_swap].
Qed.

(** Pass [i = len back] runs the inner loop along the unsorted front. *)
Lemma bubble_pass_front (x : Z) (rest back : list Z) :
  bubble_pass (len back) ((x :: rest) ++ back)
  = for_in (seqZ (len (@nil Z)) (len rest)) bubble_step ([] ++ x :: rest ++ back).
Proof.
  unfold bubble_pass, range. f_equal. f_equal.
  rewrite len_app. unfold len. cbn [length]. lia.
Qed.

(** The outer loop: with [back] sorted, in place and above all of
    [front], the remaining passes sort the whole array. *)
Lemma bubble_passes_sort (m : nat) :
  ∀ (front back : list Z),
    length front = S m →
    StronglySorted Z.le back →
    (∀ a b, a ∈ front → b ∈ back → a ≤ b) →
    ∃ out : list Z,
      for_in (seqZ (len back) (Z.of_nat m)) bubble_pass (front ++ back) = Some out ∧
      StronglySorted Z.le out ∧ out ≡ₚ front ++ back.
Proof.
  induction m as [|m IH]; intros front back Hlen Hback Hle.
  - destruct front as [|x [|? ?]]; try discriminate.
    exists (x :: back). split_and!; [done| |done].
    apply SSorted_cons; [done|]. apply Forall_forall. intros b Hb.
    apply Hle; [|done]. apply list_elem_of_here.
  - destruct front as [|x rest]; [discriminate|].
    injection Hlen as Hlen.
    rewrite seqZ_cons by lia. cbn [for_in].
    destruct (bubble_steps_carry rest [] x back) as (pre' & x' & Hrun & Hlen' & Hmax & Hperm);
      [done|].
    rewrite bubble_pass_front, Hrun. cbn [mbind option_bind].
    cbn [length] in Hlen'. cbn [app] in Hperm.
    assert (Hx' : x' ∈ x :: rest).
    { rewrite <- Hperm. apply elem_of_app. right. apply list_elem_of_here. }
    destruct (IH pre' (x' :: back)) as (out & Hout & Hsorted & Hpermout).
    + lia.
    + apply SSorted_cons; [done|]. apply Forall_forall. intros b Hb. by apply Hle.
    + intros a b Ha Hb. apply elem_of_cons in Hb as [->|Hb].
      * by eapply Forall_forall in Hmax.
      * apply Hle; [|done]. rewrite <- Hperm. apply elem_of_app. by left.
    + exists out. split_and!; [|done|].
      * rewrite <- Hout. f_equal. f_equal; unfold len; cbn [length]; lia.
      * rewrite Hpermout.
        rewrite (cons_middle x' pre' back), app_assoc, Hperm. done.
Qed.

Lemma bubble_sort_sorted_perm (arr : list Z) :
  ∃ out : list Z,
    bubble_sort arr = Some out ∧ StronglySorted Z.le out ∧ out ≡ₚ arr.
Proof.
  unfold bubble_sort, range. destruct arr as [|x rest].
  - exists []. split_and!; [done|constructor|done].
  - destruct (bubble_passes_sort (length rest) (x :: rest) []) as (out & Hrun & Hs & Hp).
    + done.
    + constructor.
    + intros a b _ Hb. by apply elem_of_nil in Hb.
    + exists out. rewrite app_nil_r in Hrun, Hp. split_and!; [|done|done].
      rewrite <- Hrun. f_equal. f_equal. unfold len. cbn [length]. lia.
Qed.

(** C8. On every finite list of integers [bubble_sort] returns (no index
    goes out of range), and the list it leaves is in non-decreasing order
    and a permutation of the original. *)
Theorem bubble_sort_sorts (arr : list Z) :
  ∃ out : list Z,
    bubble_sort arr = Some out ∧
    StronglySorted Z.le out ∧
    Sorted Z.le out ∧
    out ≡ₚ arr ∧
    length out = length arr.
Proof.
  destruct (bubble_sort_sorted_perm arr) as (out & Hrun & Hsorted & Hperm).
  exists out. split_and!; [done|done| |done|by rewrite Hperm].
  by apply StronglySorted_Sorted.
Qed.

Example bubble_sort_example :
  bubble_sort [5; -2; 9; 0; 5; 1] = Some [-2; 0; 1; 5; 5; 9].
Proof. vm_compute. reflexivity. Qed.

(** ** The Array Sorting kernel *)

Lemma sort_input_fmap (n : nat) :
  sort_input_upto (1 + Z.of_nat n) = (λ i, 10000 - i) <$> seqZ 1 (Z.of_nat n).
Proof.
  unfold sort_input_upto, range.
  replace (1 + Z.of_nat n - 1) with (Z.of_nat n) by lia.
  induction n as [|n IH]; [reflexivity|].
  rewrite seqZ_S, foldl_app, fmap_app, IH. reflexivity.
Qed.

(** The input holds [10000 - 1] down to [10000 - n]. *)
Lemma sort_input_perm (n : nat) :
  sort_input_upto (1 + Z.of_nat n) ≡ₚ seqZ (10000 - Z.of_nat n) (Z.of_nat n).
Proof.
  rewrite sort_input_fmap.
  induction n as [|n IH]; [reflexivity|].
  rewrite seqZ_S, fmap_app, IH. cbn [fmap list_fmap].
  rewrite (seqZ_cons (10000 - Z.of_nat (S n))) by lia.
  rewrite <- Permutation_cons_append.
  replace (Z.succ (10000 - Z.of_nat (S n))) with (10000 - Z.of_nat n) by lia.
  replace (Z.pred (Z.of_nat (S n))) with (Z.of_nat n) by lia.
  replace (10000 - (1 + Z.of_nat n)) with (10000 - Z.of_nat (S n)) by lia.
  reflexivity.
Qed.

Lemma seqZ_strictly_sorted (n : nat) :
  ∀ m : Z, StronglySorted Z.lt (seqZ m (Z.of_nat n)).
Proof.
  induction n as [|n IH]; intros m; [constructor|].
  rewrite seqZ_cons by lia.
  replace (Z.pred (Z.of_nat (S n))) with (Z.of_nat n) by lia.
  apply SSorted_cons; [apply IH|].
  apply Forall_seqZ. intros k Hk. lia.
Qed.

Lemma strictly_sorted_sorted (l : list Z) :
  StronglySorted Z.lt l → StronglySorted Z.le l.
Proof.
  induction 1 as [|x l Hl IH Hx]; constructor; [done|].
  eapply Forall_impl; [exact Hx|]. intros y Hy. cbn in Hy. lia.
Qed.

(** What [bubble_sort] leaves of the kernel's input: 0, 1, ..., 9999. *)
Lemma sort_output : bubble_sort sort_input = Some (seqZ 0 10000).
Proof.
  destruct (bubble_sort_sorted_perm sort_input) as (out & Hrun & Hsorted & Hperm).
  rewrite Hrun. f_equal.
  apply (StronglySorted_unique Z.le); [done| |].
  - apply strictly_sorted_sorted.
    rewrite <- (Z2Nat.id 10000) by lia. apply seqZ_strictly_sorted.
  - rewrite Hperm. unfold sort_input.
    pose proof (sort_input_perm (Z.to_nat 10000)) as H.
    rewrite Z2Nat.id in H by lia. exact H.
Qed.

(** C1, as stated, fails: the input [10000 - i] for [i] in 1..10000 holds
    the values 9999 down to 0, so the sorted array starts with 0 and ends
    with 9999, not with 1 and 10000. *)
Lemma sort_output_not_1_10000 :
  ¬ (∃ sort_arr : list Z,
       bubble_sort sort_input = Some sort_arr ∧
       StronglySorted Z.lt sort_arr ∧
       list_getitem sort_arr 0 = Some 1 ∧
       list_getitem sort_arr 9999 = Some 10000).
Proof.
  intros (sort_arr & Hrun & _ & Hfirst & _).
  rewrite sort_output in Hrun. injection Hrun as <-.
  rewrite list_getitem_nonneg in Hfirst
    by (unfold len; rewrite length_seqZ; lia).
  rewrite lookup_seqZ_lt in Hfirst by lia. discriminate.
Qed.

(** C1 (amended). After building the 10,000-element array with value
    [10000 - i] for [i] in 1..10000 and running [bubble_sort], the
    resulting array has 10,000 elements, is strictly ascending, and has
    first element 0 and last element (index 9999) 9999. *)
Theorem sort_output_ascending :
  ∃ sort_arr : list Z,
    bubble_sort sort_input = Some sort_arr ∧
    len sort_arr = 10000 ∧
    StronglySorted Z.lt sort_arr ∧
    list_getitem sort_arr 0 = Some 0 ∧
    list_getitem sort_arr 9999 = Some 9999.
Proof.
  exists (seqZ 0 10000).
  assert (Hlen : len (seqZ 0 10000) = 10000)
    by (unfold len; rewrite length_seqZ; lia).
  split_and!.
  - apply sort_output.
  - exact Hlen.
  - rewrite <- (Z2Nat.id 10000) by lia. apply seqZ_strictly_sorted.
  - rewrite list_getitem_nonneg by lia. by rewrite lookup_seqZ_lt by lia.
  - rewrite list_getitem_nonneg by lia. by rewrite lookup_seqZ_lt by lia.
Qed.

(** ** Running [main] *)

Lemma bind_Some {A B} (m : M A) (k : A → M B) (w w' : World) (a : A) :
  m w = (Some a, w') → (m ≫= k) w = k a w'.
Proof. intros H. unfold mbind, M_bind, bind. by rewrite H. Qed.

Lemma print_run (s : string) (c : nat → PyFloat.t) (n : nat) (out : list string) :
  print s (mkWorld c n out) = (Some tt, mkWorld c n (out ++ [s])).
Proof. reflexivity. Qed.

Lemma get_time_run (c : nat → PyFloat.t) (n : nat) (out : list string) :
  get_time_microseconds (mkWorld c n out)
  = (Some (microseconds (c n)), mkWorld c (S n) out).
Proof. reflexivity. Qed.

Lemma start_run (s e d : Z) (c : nat → PyFloat.t) (n : nat) (out : list string) :
  BenchmarkTimer.start (BenchmarkTimer.mk s e d) (mkWorld c n out)
  = (Some (BenchmarkTimer.mk (microseconds (c n)) e d), mkWorld c (S n) out).
Proof. reflexivity. Qed.

Lemma end_run (s e d : Z) (c : nat → PyFloat.t) (n : nat) (out : list string) :
  BenchmarkTimer.end_ (BenchmarkTimer.mk s e d) (mkWorld c n out)
  = (Some (microseconds (c n) - s,
           BenchmarkTimer.mk s (microseconds (c n)) (microseconds (c n) - s)),
     mkWorld c (S n) out).
Proof. reflexivity. Qed.

Lemma lift_run {A} (a : A) (w : World) : lift (Some a) w = (Some a, w).
Proof. reflexivity. Qed.

Lemma sorted_first : list_getitem (seqZ 0 10000) 0 = Some 0.
Proof.
  rewrite list_getitem_nonneg by (unfold len; rewrite length_seqZ; lia).
  by rewrite lookup_seqZ_lt by lia.
Qed.

Lemma sorted_last : list_getitem (seqZ 0 10000) 9999 = Some 9999.
Proof.
  rewrite list_getitem_nonneg by (unfold len; rewrite length_seqZ; lia).
  by rewrite lookup_seqZ_lt by lia.
Qed.

(** One statement of [main]: run its first call, continue with the rest. *)
Ltac run_step :=
  erewrite bind_Some;
  [|first [apply print_run | apply start_run | apply end_run | apply lift_run]];
  cbv beta iota zeta.

(** A full run returns normally and prints these 25 texts. *)
Lemma main_stdout_eq (clock : nat → PyFloat.t) :
  main_stdout clock =
  [ "=== PYTHON STANDARDIZED BENCHMARK SUITE ===";
    "Testing identical operations across all languages" +:+ newline;
    "Simple Loop (1M): " +:+ pretty (duration_of clock 1)
      +:+ " microseconds, Sum: " +:+ pretty simple_loop;
    "String Concatenation (10K): " +:+ pretty (duration_of clock 2)
      +:+ " microseconds, Length: " +:+ pretty (snd string_concat);
    "Array Creation (100K): " +:+ pretty (duration_of clock 3)
      +:+ " microseconds, Length: " +:+ pretty (DynamicArray.length array_creation);
    "Math Operations (100K): " +:+ pretty (duration_of clock 4)
      +:+ " microseconds, Result: " +:+ pretty math_operations;
    "Function Calls (100K): " +:+ pretty (duration_of clock 5) +:+ " microseconds";
    "Nested Loop (1K x 1K): " +:+ pretty (duration_of clock 6)
      +:+ " microseconds, Sum: " +:+ pretty nested_loop;
    "String Search (100K): " +:+ pretty (duration_of clock 7)
      +:+ " microseconds, Found: " +:+ pretty search_count;
    "Array Sorting (10K): " +:+ pretty (duration_of clock 8)
      +:+ " microseconds, First: " +:+ pretty 0 +:+ ", Last: " +:+ pretty 9999;
    "Recursive Functions (1K): " +:+ pretty (duration_of clock 9)
      +:+ " microseconds, Fib(20): " +:+ pretty (fibonacci 20);
    "Memory Operations (10K): " +:+ pretty (duration_of clock 10)
      +:+ " microseconds, Final Length: " +:+ pretty (DynamicArray.length memory_loop);
    newline +:+ "=== PYTHON BENCHMARK RESULTS ===";
    "Simple Loop (1M): " +:+ pretty (duration_of clock 1) +:+ " microseconds";
    "String Concatenation (10K): " +:+ pretty (duration_of clock 2) +:+ " microseconds";
    "Array Creation (100K): " +:+ pretty (duration_of clock 3) +:+ " microseconds";
    "Math Operations (100K): " +:+ pretty (duration_of clock 4) +:+ " microseconds";
    "Function Calls (100K): " +:+ pretty (duration_of clock 5) +:+ " microseconds";
    "Nested Loop (1K x 1K): " +:+ pretty (duration_of clock 6) +:+ " microseconds";
    "String Search (100K): " +:+ pretty (duration_of clock 7) +:+ " microseconds";
    "Array Sorting (10K): " +:+ pretty (duration_of clock 8) +:+ " microseconds";
    "Recursive Functions (1K): " +:+ pretty (duration_of clock 9) +:+ " microseconds";
    "Memory Operations (10K): " +:+ pretty (duration_of clock 10) +:+ " microseconds";
    newline +:+ "Total Benchmark Time: " +:+ pretty (total_of clock) +:+ " microseconds";
    "Total Benchmark Time: "
      +:+ PyFloat.format_1f (PyFloat.int_truediv (total_of clock) 1000)
      +:+ " milliseconds" ].
Proof.
  unfold main_stdout, main. cbv zeta.
  destruct string_concat as [str_result total_len] eqn:Hconcat.
  unfold BenchmarkTimer.init.
  do 23 run_step.
  rewrite sort_output.
  do 2 run_step.
  rewrite sorted_first, sorted_last.
  do 22 run_step.
  rewrite print_run. cbn [snd stdout].
  rewrite <- !app_assoc. cbn [app].
  unfold total_of, duration_of. cbn [Nat.mul Nat.sub Nat.add snd].
  reflexivity.
Qed.

(** ** The immediate reports *)

Lemma has_comma_app (s1 s2 : string) :
  has_comma (s1 +:+ s2) = has_comma s1 || has_comma s2.
Proof.
  induction s1 as [|a s1 IH]; simpl; [reflexivity|].
  by rewrite IH, orb_assoc.
Qed.

Lemma report_form_has_comma (line : string) (duration : Z) :
  report_form line duration → has_comma line = true.
Proof.
  intros (label & aux_label & value & ->).
  rewrite !has_comma_app.
  change (has_comma " microseconds, ") with true.
  by rewrite !orb_true_r.
Qed.

Lemma string_app_assoc (s1 s2 s3 : string) :
  (s1 +:+ s2) +:+ s3 = s1 +:+ (s2 +:+ s3).
Proof.
  induction s1 as [|a s1 IH]; [reflexivity|].
  change (String a ((s1 +:+ s2) +:+ s3) = String a (s1 +:+ (s2 +:+ s3))).
  by f_equal.
Qed.

(** The way each report is written in [main]: the label with its colon,
    the duration, and the auxiliary label between [" microseconds, "] and
    its colon. *)
Lemma report_line_eq (label aux_label : string) (head tail value : string) (d : Z) :
  head = label +:+ ": " →
  tail = " microseconds, " +:+ aux_label +:+ ": " →
  head +:+ pretty d +:+ tail +:+ value = report_line label d aux_label value.
Proof. intros -> ->. unfold report_line. by rewrite !string_app_assoc. Qed.

(** Every such report has the form. *)
Lemma report_line_form (label aux_label value : string) (d : Z) :
  report_form (report_line label d aux_label value) d.
Proof. by exists label, aux_label, value. Qed.

(** C3, as stated, fails for kernel 5: the report of the Function Calls
    kernel is ["Function Calls (100K): <duration> microseconds"], with no
    auxiliary label or value after the duration. *)
Lemma function_calls_report_no_value :
  ¬ (∀ (clock : nat → PyFloat.t) (k : nat),
       (1 ≤ k ≤ 10)%nat →
       ∃ line : string,
         main_stdout clock !! (k + 1)%nat = Some line ∧
         report_form line (duration_of clock k)).
Proof.
  intros H. destruct (H frozen_clock 5%nat ltac:(lia)) as (line & Hline & Hform).
  rewrite main_stdout_eq in Hline. cbn [lookup list_lookup Nat.add] in Hline.
  injection Hline as <-.
  apply report_form_has_comma in Hform.
  vm_compute in Hform. discriminate.
Qed.

(** C3 (amended). For every kernel but the fifth, the report printed right
    after the kernel finishes is exactly
    ["<Label>: <duration> microseconds, <AuxiliaryLabel>: <value>"] with
    that kernel's own label, its measured duration, and its auxiliary
    label and check value: the sum of the Simple Loop, the total length of
    the String Concatenation, the length of the array, the result of the
    Math Operations, the sum of the Nested Loop, the count found by the
    String Search, the first and last element of the sorted array (two
    fields, [First: 0, Last: 9999]), Fib(20), and the final length of the
    Memory Operations. For kernel 5, Function Calls, the report is
    ["Function Calls (100K): <duration> microseconds"], with no auxiliary
    label or value. *)
Theorem immediate_reports (clock : nat → PyFloat.t) :
  take 10 (drop 2 (main_stdout clock)) =
  [ report_line "Simple Loop (1M)" (duration_of clock 1)
      "Sum" (pretty simple_loop);
    report_line "String Concatenation (10K)" (duration_of clock 2)
      "Length" (pretty (snd string_concat));
    report_line "Array Creation (100K)" (duration_of clock 3)
      "Length" (pretty (DynamicArray.length array_creation));
    report_line "Math Operations (100K)" (duration_of clock 4)
      "Result" (pretty math_operations);
    "Function Calls (100K): " +:+ pretty (duration_of clock 5) +:+ " microseconds";
    report_line "Nested Loop (1K x 1K)" (duration_of clock 6)
      "Sum" (pretty nested_loop);
    report_line "String Search (100K)" (duration_of clock 7)
      "Found" (pretty search_count);
    report_line "Array Sorting (10K)" (duration_of clock 8)
      "First" (pretty 0 +:+ ", Last: " +:+ pretty 9999);
    report_line "Recursive Functions (1K)" (duration_of clock 9)
      "Fib(20)" (pretty (fibonacci 20));
    report_line "Memory Operations (10K)" (duration_of clock 10)
      "Final Length" (pretty (DynamicArray.length memory_loop)) ].
Proof.
  rewrite main_stdout_eq. cbn [take drop].
  rewrite <- (report_line_eq "Simple Loop (1M)" "Sum"
                "Simple Loop (1M): " " microseconds, Sum: ") by reflexivity.
  rewrite <- (report_line_eq "String Concatenation (10K)" "Length"
                "String Concatenation (10K): " " microseconds, Length: ") by reflexivity.
  rewrite <- (report_line_eq "Array Creation (100K)" "Length"
                "Array Creation (100K): " " microseconds, Length: ") by reflexivity.
  rewrite <- (report_line_eq "Math Operations (100K)" "Result"
                "Math Operations (100K): " " microseconds, Result: ") by reflexivity.
  rewrite <- (report_line_eq "Nested Loop (1K x 1K)" "Sum"
                "Nested Loop (1K x 1K): " " microseconds, Sum: ") by reflexivity.
  rewrite <- (report_line_eq "String Search (100K)" "Found"
                "String Search (100K): " " microseconds, Found: ") by reflexivity.
  rewrite <- (report_line_eq "Array Sorting (10K)" "First"
                "Array Sorting (10K): " " microseconds, First: ") by reflexivity.
  rewrite <- (report_line_eq "Recursive Functions (1K)" "Fib(20)"
                "Recursive Functions (1K): " " microseconds, Fib(20): ") by reflexivity.
  rewrite <- (report_line_eq "Memory Operations (10K)" "Final Length"
                "Memory Operations (10K): " " microseconds, Final Length: ") by reflexivity.
  reflexivity.
Qed.

(** ** Floats *)

Lemma round_half_even_near (a b : Z) :
  0 < b →
  - b ≤ 2 * (b * PyFloat.round_half_even a b - a) ≤ b.
Proof.
  intros Hb. unfold PyFloat.round_half_even. cbv zeta.
  pose proof (Z.div_mod a b ltac:(lia)) as Hdm.
  pose proof (Z.mod_pos_bound a b Hb) as Hr.
  repeat case_decide; [lia|lia|].
  destruct (Z.even (a `div` b)); lia.
Qed.

Lemma exponent_le (a b : Z) :
  PyFloat.exponent a b ≤ Z.log2 a - Z.log2 b - 52.
Proof. unfold PyFloat.exponent. destruct (PyFloat.below_pow2 _ _ _); lia. Qed.

(** Two roundings, one to 53 bits and one to tenths, stay within half a
    tenth of the quotient as long as the spacing of the floats near it is
    below a thousandth. *)
Lemma tenths_of_ratio_near (s : bool) (t : Z) :
  0 ≤ t < 2 ^ 53 →
  PyFloat.sign (PyFloat.of_ratio s t 1000) = s ∧
  Z.abs (100 * PyFloat.tenths (PyFloat.of_ratio s t 1000) - t) ≤ 50.
Proof.
  intros Ht. unfold PyFloat.of_ratio.
  case_decide as Hzero; [subst t; split; [reflexivity|by vm_compute]|].
  set (e := PyFloat.exponent t 1000).
  assert (He : e ≤ -9).
  { pose proof (exponent_le t 1000) as Hle. fold e in Hle.
    change (Z.log2 1000) with 9 in Hle.
    assert (Z.log2 t < 53) by (apply Z.log2_lt_pow2; lia). lia. }
  unfold PyFloat.scaled. rewrite (decide_False (P := 0 ≤ e)) by lia.
  set (D := 2 ^ (- e)).
  assert (HD : 512 ≤ D).
  { change 512 with (2 ^ 9). apply Z.pow_le_mono_r; lia. }
  pose proof (round_half_even_near (t * D) 1000 ltac:(lia)) as Hm.
  set (m := PyFloat.round_half_even (t * D) 1000) in *.
  case_decide as Hcarry.
  - split; [reflexivity|]. unfold PyFloat.tenths. cbn [PyFloat.exp PyFloat.mant].
    rewrite decide_False by lia.
    set (D' := 2 ^ (- (e + 1))).
    assert (HDD : D = 2 * D').
    { unfold D, D'. replace (- e) with (Z.succ (- (e + 1))) by lia.
      apply Z.pow_succ_r. lia. }
    pose proof (round_half_even_near (10 * 2 ^ 52) D' ltac:(lia)) as Hn.
    set (n := PyFloat.round_half_even (10 * 2 ^ 52) D') in *.
    change (2 ^ 53) with 9007199254740992 in Hcarry.
    change (2 ^ 52) with 4503599627370496 in Hn.
    rewrite Hcarry, HDD in Hm.
    apply Z.abs_le. split.
    + destruct (Z_le_gt_dec (-50) (100 * n - t)) as [|Hbad]; [done|].
      assert ((100 * n - t) * D' ≤ -51 * D') by nia. lia.
    + destruct (Z_le_gt_dec (100 * n - t) 50) as [|Hbad]; [done|].
      assert (51 * D' ≤ (100 * n - t) * D') by nia. lia.
  - split; [reflexivity|]. unfold PyFloat.tenths. cbn [PyFloat.exp PyFloat.mant].
    rewrite decide_False by lia. fold D.
    pose proof (round_half_even_near (10 * m) D ltac:(lia)) as Hn.
    set (n := PyFloat.round_half_even (10 * m) D) in *.
    apply Z.abs_le. split.
    + destruct (Z_le_gt_dec (-50) (100 * n - t)) as [|Hbad]; [done|].
      assert ((100 * n - t) * D ≤ -51 * D) by nia. lia.
    + destruct (Z_le_gt_dec (100 * n - t) 50) as [|Hbad]; [done|].
      assert (51 * D ≤ (100 * n - t) * D) by nia. lia.
Qed.

(** Dividing a total below [2^53] microseconds by 1000 and formatting it
    with [.1f] prints a sign and [n / 10 . n mod 10] for a number [n] of
    tenths of a millisecond within 0.05 ms of the exact quotient. *)
Lemma format_total_near (total : Z) :
  Z.abs total < 2 ^ 53 →
  ∃ n : Z,
    PyFloat.format_1f (PyFloat.int_truediv total 1000)
    = (if bool_decide (total < 0) then "-" else "")
      +:+ pretty (n / 10) +:+ "." +:+ pretty (n mod 10) ∧
    0 ≤ n ∧
    Z.abs (100 * n - Z.abs total) ≤ 50.
Proof.
  intros Ht. unfold PyFloat.int_truediv.
  rewrite (bool_decide_eq_false_2 (1000 < 0)) by lia.
  rewrite xorb_false_r. change (Z.abs 1000) with 1000.
  destruct (tenths_of_ratio_near (bool_decide (total < 0)) (Z.abs total)) as [Hs Hn];
    [lia|].
  exists (PyFloat.tenths (PyFloat.of_ratio (bool_decide (total < 0)) (Z.abs total) 1000)).
  split; [|split].
  - unfold PyFloat.format_1f. by rewrite Hs.
  - lia.
  - exact Hn.
Qed.

Example format_1f_examples :
  (λ total, PyFloat.format_1f (PyFloat.int_truediv total 1000))
    <$> [0; 49; 50; 150; 250; 350; 450; 750; 123456; 999999; -40; -1250]
  = ["0.0"; "0.0"; "0.1"; "0.1"; "0.2"; "0.3"; "0.5"; "0.8"; "123.5"; "1000.0";
     "-0.0"; "-1.2"].
Proof. vm_compute. reflexivity. Qed.

(** The model agrees with the Standard Library's binary64 operations. *)
Example int_truediv_binary64 :
  (λ total, PyFloat.to_spec (PyFloat.int_truediv total 1000))
    <$> [0; 1; 50; 250; 999; 123456; 86400000000; 9007199254740991]
  = (λ total, SFdiv 53 1024 (binary_normalize 53 1024 total 0 false)
                            (binary_normalize 53 1024 1000 0 false))
    <$> [0; 1; 50; 250; 999; 123456; 86400000000; 9007199254740991].
Proof. vm_compute. reflexivity. Qed.

Example mul_binary64 :
  (λ t, PyFloat.to_spec (PyFloat.mul (PyFloat.int_truediv t 1000000)
                                     (PyFloat.of_int 1000000)))
    <$> [1; 1500000; 1762190000123456; 1762190000123457]
  = (λ t, SFmul 53 1024 (PyFloat.to_spec (PyFloat.int_truediv t 1000000))
                        (binary_normalize 53 1024 1000000 0 false))
    <$> [1; 1500000; 1762190000123456; 1762190000123457].
Proof. vm_compute. reflexivity. Qed.

(** Clock readings of whole microseconds come back unchanged. *)
Example microseconds_examples :
  (λ a, microseconds (PyFloat.int_truediv a 1000000))
    <$> [1; 1500000; 123456789; 1762190000123456; 1762190000123457]
  = [1; 1500000; 123456789; 1762190000123456; 1762190000123457].
Proof. vm_compute. reflexivity. Qed.

(** ** The totals *)

(** C5. The total that [main] reports is the exact integer sum of the
    ten kernel durations (those of the ten summary lines), and it is
    printed twice: as an integer count of microseconds, and in
    milliseconds as the float [total_time / 1000] formatted with [.1f].
    For a total below [2^53] microseconds that text is a sign and a
    decimal with one fractional digit within 0.05 of the exact quotient. *)
Theorem total_report (clock : nat → PyFloat.t) :
  let total_time :=
    duration_of clock 1 + duration_of clock 2 + duration_of clock 3 +
    duration_of clock 4 + duration_of clock 5 + duration_of clock 6 +
    duration_of clock 7 + duration_of clock 8 + duration_of clock 9 +
    duration_of clock 10 in
  (∀ k : nat, (1 ≤ k ≤ 10)%nat →
     ∃ label : string,
       main_stdout clock !! (k + 12)%nat
       = Some (label +:+ ": " +:+ pretty (duration_of clock k) +:+ " microseconds")) ∧
  main_stdout clock !! 23%nat
  = Some (newline +:+ "Total Benchmark Time: " +:+ pretty total_time
          +:+ " microseconds") ∧
  main_stdout clock !! 24%nat
  = Some ("Total Benchmark Time: "
          +:+ PyFloat.format_1f (PyFloat.int_truediv total_time 1000)
          +:+ " milliseconds") ∧
  length (main_stdout clock) = 25%nat ∧
  (Z.abs total_time < 2 ^ 53 →
   ∃ n : Z,
     PyFloat.format_1f (PyFloat.int_truediv total_time 1000)
     = (if bool_decide (total_time < 0) then "-" else "")
       +:+ pretty (n / 10) +:+ "." +:+ pretty (n mod 10) ∧
     0 ≤ n ∧
     Z.abs (100 * n - Z.abs total_time) ≤ 50).
Proof.
  intros total_time. rewrite main_stdout_eq. split_and!.
  - intros k Hk.
    destruct k as [|[|[|[|[|[|[|[|[|[|[|k]]]]]]]]]]]; try lia;
      cbn [lookup list_lookup Nat.add].
    + by exists "Simple Loop (1M)".
    + by exists "String Concatenation (10K)".
    + by exists "Array Creation (100K)".
    + by exists "Math Operations (100K)".
    + by exists "Function Calls (100K)".
    + by exists "Nested Loop (1K x 1K)".
    + by exists "String Search (100K)".
    + by exists "Array Sorting (10K)".
    + by exists "Recursive Functions (1K)".
    + by exists "Memory Operations (10K)".
  - reflexivity.
  - reflexivity.
  - reflexivity.
  - apply format_total_near.
Qed.

Lemma total_report_witness :
  Z.abs (total_of frozen_clock) < 2 ^ 53 ∧
  ∃ n : Z,
    PyFloat.format_1f (PyFloat.int_truediv (total_of frozen_clock) 1000)
    = (if bool_decide (total_of frozen_clock < 0) then "-" else "")
      +:+ pretty (n / 10) +:+ "." +:+ pretty (n mod 10) ∧
    0 ≤ n ∧
    Z.abs (100 * n - Z.abs (total_of frozen_clock)) ≤ 50.
Proof.
  assert (H : Z.abs (total_of frozen_clock) < 2 ^ 53) by (by vm_compute).
  split; [exact H|].
  exact (proj2 (proj2 (proj2 (proj2 (total_report frozen_clock)))) H).
Defined.

(** ** The clock conversion *)

Lemma pow2_pos (k : Z) : 0 ≤ k → 0 < 2 ^ k.
Proof. intros. by apply Z.pow_pos_nonneg. Qed.

Lemma pow2_add (x y : Z) : 0 ≤ x → 0 ≤ y → 2 ^ (x + y) = 2 ^ x * 2 ^ y.
Proof. intros. by apply Z.pow_add_r. Qed.

(** [a / b < 2^k], with both sides scaled by [2^N] so that no exponent is
    negative. *)
Lemma below_pow2_iff (a b k N : Z) :
  - N ≤ k ≤ N →
  PyFloat.below_pow2 a b k = true ↔ a * 2 ^ N < b * 2 ^ (N + k).
Proof.
  intros Hk. unfold PyFloat.below_pow2. case_decide as Hsign.
  - rewrite bool_decide_eq_true, pow2_add by lia.
    pose proof (pow2_pos N ltac:(lia)) as HN. split; intros H; nia.
  - rewrite bool_decide_eq_true.
    replace N with ((N + k) + (- k)) at 1 by lia. rewrite pow2_add by lia.
    pose proof (pow2_pos (N + k) ltac:(lia)) as HN. split; intros H; nia.
Qed.

Lemma round_half_even_tie (a b q : Z) :
  0 < b → 2 * a = b * (2 * q + 1) →
  PyFloat.round_half_even a b = if Z.even q then q else q + 1.
Proof.
  intros Hb Htie. unfold PyFloat.round_half_even. cbv zeta.
  assert (Hq : a `div` b = q) by (symmetry; apply (Z.div_unique a b q (a - b * q)); lia).
  assert (Hr : a `mod` b = a - b * q)
    by (symmetry; apply (Z.mod_unique a b q (a - b * q)); lia).
  rewrite Hq, Hr. rewrite !decide_False by lia. done.
Qed.

(** Rounding to the nearest integer is monotone in the quotient. *)
Lemma round_half_even_mono (a b a' b' : Z) :
  0 < b → 0 < b' → a * b' ≤ a' * b →
  PyFloat.round_half_even a b ≤ PyFloat.round_half_even a' b'.
Proof.
  intros Hb Hb' Hle.
  pose proof (round_half_even_near a b Hb) as Hn.
  pose proof (round_half_even_near a' b' Hb') as Hn'.
  destruct (Z_le_gt_dec (PyFloat.round_half_even a b) (PyFloat.round_half_even a' b'))
    as [|Hgt]; [done|exfalso].
  set (n := PyFloat.round_half_even a b) in *.
  set (n' := PyFloat.round_half_even a' b') in *.
  assert (H1 : b * (2 * n' + 1) ≤ 2 * a) by nia.
  assert (H2 : 2 * a' ≤ b' * (2 * n' + 1)) by lia.
  assert (H3 : b * b' * (2 * n' + 1) ≤ 2 * a * b') by nia.
  assert (H4 : 2 * a' * b ≤ b * b' * (2 * n' + 1)) by nia.
  assert (Ha : 2 * a = b * (2 * n' + 1)) by nia.
  assert (Ha' : 2 * a' = b' * (2 * n' + 1)) by nia.
  pose proof (round_half_even_tie a b n' Hb Ha) as Ht.
  pose proof (round_half_even_tie a' b' n' Hb' Ha') as Ht'.
  fold n in Ht. fold n' in Ht'. lia.
Qed.

Lemma below_pow2_false (a b k N : Z) :
  - N ≤ k ≤ N →
  PyFloat.below_pow2 a b k = false ↔ b * 2 ^ (N + k) ≤ a * 2 ^ N.
Proof.
  intros Hk. rewrite <- not_true_iff_false, (below_pow2_iff a b k N) by done. lia.
Qed.

(** The exponent chosen for [a / b] brackets it between [2^52] and [2^53]
    units. *)
Lemma exponent_spec (a b N : Z) :
  0 < a → 0 < b →
  - N ≤ PyFloat.exponent a b + 52 → PyFloat.exponent a b + 53 ≤ N →
  b * 2 ^ (N + (PyFloat.exponent a b + 52)) ≤ a * 2 ^ N
  ∧ a * 2 ^ N < b * 2 ^ (N + (PyFloat.exponent a b + 53)).
Proof.
  intros Ha Hb. unfold PyFloat.exponent. cbv zeta.
  pose proof (Z.log2_spec a Ha) as Hla. pose proof (Z.log2_spec b Hb) as Hlb.
  pose proof (Z.log2_nonneg a) as Hla0. pose proof (Z.log2_nonneg b) as Hlb0.
  set (la := Z.log2 a) in *. set (lb := Z.log2 b) in *.
  pose proof (pow2_pos N) as HN.
  destruct (PyFloat.below_pow2 a b (la - lb - 53 + 53)) eqn:Hbelow; intros Hlo Hhi.
  - apply (below_pow2_iff a b _ N) in Hbelow; [|lia].
    split; [|replace (N + (la - lb - 53 + 53)) with (N + (la - lb - 53 + 53)) by lia; lia].
    assert (Heq : 2 ^ Z.succ lb * 2 ^ (N + (la - lb - 53 + 52)) = 2 ^ la * 2 ^ N).
    { rewrite <- !pow2_add by lia. f_equal. lia. }
    pose proof (pow2_pos (N + (la - lb - 53 + 52)) ltac:(lia)).
    specialize (HN ltac:(lia)). nia.
  - apply (below_pow2_false a b _ N) in Hbelow; [|lia].
    split; [replace (N + (la - lb - 53 + 1 + 52)) with (N + (la - lb - 53 + 53)) by lia; lia|].
    assert (Heq : 2 ^ lb * 2 ^ (N + (la - lb - 53 + 1 + 53)) = 2 ^ Z.succ la * 2 ^ N).
    { rewrite <- !pow2_add by lia. f_equal. lia. }
    pose proof (pow2_pos (N + (la - lb - 53 + 1 + 53)) ltac:(lia)).
    specialize (HN ltac:(lia)). nia.
Qed.

(** The rounded mantissa is within half a unit of [a / b / 2^e]. *)
Lemma scaled_near (a b e N : Z) :
  0 < b → - N ≤ e ≤ N →
  - (b * 2 ^ (N + e)) ≤ 2 * (b * 2 ^ (N + e) * PyFloat.scaled a b e - a * 2 ^ N)
  ≤ b * 2 ^ (N + e).
Proof.
  intros Hb He. unfold PyFloat.scaled. case_decide as Hsign.
  - pose proof (pow2_pos e Hsign) as Hpe. pose proof (pow2_pos N ltac:(lia)) as HpN.
    pose proof (round_half_even_near a (b * 2 ^ e) ltac:(lia)) as Hn.
    set (m := PyFloat.round_half_even a (b * 2 ^ e)) in *.
    rewrite pow2_add by lia. set (P := 2 ^ N) in *. set (Q := 2 ^ e) in *. nia.
  - pose proof (pow2_pos (- e) ltac:(lia)) as Hpe.
    pose proof (pow2_pos (N + e) ltac:(lia)) as HpN.
    pose proof (round_half_even_near (a * 2 ^ (- e)) b Hb) as Hn.
    set (m := PyFloat.round_half_even (a * 2 ^ (- e)) b) in *.
    replace (2 ^ N) with (2 ^ (N + e) * 2 ^ (- e))
      by (rewrite <- pow2_add by lia; f_equal; lia).
    set (P := 2 ^ (N + e)) in *. set (Q := 2 ^ (- e)) in *. nia.
Qed.

Lemma scaled_mono (a b a' b' e : Z) :
  0 < b → 0 < b' → a * b' ≤ a' * b →
  PyFloat.scaled a b e ≤ PyFloat.scaled a' b' e.
Proof.
  intros Hb Hb' Hle. unfold PyFloat.scaled. case_decide as Hsign.
  - pose proof (pow2_pos e Hsign). apply round_half_even_mono; nia.
  - pose proof (pow2_pos (- e) ltac:(lia)). apply round_half_even_mono; nia.
Qed.

(** The mantissa before the carry lies between [2^52] and [2^53]. *)
Lemma scaled_range (a b N : Z) :
  0 < a → 0 < b →
  - N ≤ PyFloat.exponent a b → PyFloat.exponent a b + 53 ≤ N →
  2 ^ 52 ≤ PyFloat.scaled a b (PyFloat.exponent a b) ≤ 2 ^ 53.
Proof.
  intros Ha Hb Hlo Hhi.
  destruct (exponent_spec a b N Ha Hb ltac:(lia) Hhi) as [Hl Hu].
  pose proof (scaled_near a b (PyFloat.exponent a b) N Hb ltac:(lia)) as Hn.
  set (e := PyFloat.exponent a b) in *. set (m := PyFloat.scaled a b e) in *.
  replace (N + (e + 52)) with ((N + e) + 52) in Hl by lia.
  replace (N + (e + 53)) with ((N + e) + 53) in Hu by lia.
  rewrite pow2_add in Hl, Hu by lia.
  pose proof (pow2_pos (N + e) ltac:(lia)) as HU.
  set (U := 2 ^ (N + e)) in *. set (X := a * 2 ^ N) in *.
  change (2 ^ 52) with 4503599627370496 in *.
  change (2 ^ 53) with 9007199254740992 in *.
  assert (HbU : 0 < b * U) by nia.
  set (V := b * U) in *.
  replace (b * (U * 4503599627370496)) with (V * 4503599627370496) in Hl by (unfold V; lia).
  replace (b * (U * 9007199254740992)) with (V * 9007199254740992) in Hu by (unfold V; lia).
  split.
  - destruct (Z_le_gt_dec 4503599627370496 m) as [|Hbad]; [done|exfalso].
    assert (V * m ≤ V * 4503599627370495) by nia. lia.
  - destruct (Z_le_gt_dec m 9007199254740992) as [|Hbad]; [done|exfalso].
    assert (V * 9007199254740993 ≤ V * m) by nia. lia.
Qed.

(** The float made from [a / b]: its sign, the range of its mantissa, and
    its magnitude in units of [2^-N]. *)
Lemma of_ratio_value (s : bool) (a b N : Z) :
  0 < a → 0 < b →
  - N ≤ PyFloat.exponent a b → PyFloat.exponent a b + 54 ≤ N →
  PyFloat.sign (PyFloat.of_ratio s a b) = s
  ∧ 2 ^ 52 ≤ PyFloat.mant (PyFloat.of_ratio s a b) < 2 ^ 53
  ∧ PyFloat.exponent a b ≤ PyFloat.exp (PyFloat.of_ratio s a b) ≤ PyFloat.exponent a b + 1
  ∧ PyFloat.mant (PyFloat.of_ratio s a b) * 2 ^ (N + PyFloat.exp (PyFloat.of_ratio s a b))
    = PyFloat.scaled a b (PyFloat.exponent a b) * 2 ^ (N + PyFloat.exponent a b).
Proof.
  intros Ha Hb Hlo Hhi.
  pose proof (scaled_range a b N Ha Hb Hlo ltac:(lia)) as Hm.
  unfold PyFloat.of_ratio. rewrite decide_False by lia. cbv zeta.
  set (e := PyFloat.exponent a b) in *. set (m := PyFloat.scaled a b e) in *.
  case_decide as Hcarry; cbn [PyFloat.sign PyFloat.mant PyFloat.exp].
  - split; [done|]. split; [change (2 ^ 52) with 4503599627370496;
                             change (2 ^ 53) with 9007199254740992; lia|].
    split; [lia|]. rewrite Hcarry.
    replace (N + (e + 1)) with (1 + (N + e)) by lia. rewrite (pow2_add 1) by lia.
    change (2 ^ 52) with 4503599627370496. change (2 ^ 53) with 9007199254740992.
    change (2 ^ 1) with 2. lia.
  - split; [done|]. split; [lia|]. split; [lia|done].
Qed.

(** Making a float from a quotient is monotone in the quotient. *)
Lemma of_ratio_mono (s s' : bool) (a b a' b' N : Z) :
  0 < a → 0 < b → 0 < a' → 0 < b' → a * b' ≤ a' * b →
  - N ≤ PyFloat.exponent a b → PyFloat.exponent a b + 54 ≤ N →
  - N ≤ PyFloat.exponent a' b' → PyFloat.exponent a' b' + 54 ≤ N →
  PyFloat.mant (PyFloat.of_ratio s a b) * 2 ^ (N + PyFloat.exp (PyFloat.of_ratio s a b))
  ≤ PyFloat.mant (PyFloat.of_ratio s' a' b')
    * 2 ^ (N + PyFloat.exp (PyFloat.of_ratio s' a' b')).
Proof.
  intros Ha Hb Ha' Hb' Hle Hlo Hhi Hlo' Hhi'.
  destruct (of_ratio_value s a b N Ha Hb Hlo Hhi) as (_ & _ & _ & ->).
  destruct (of_ratio_value s' a' b' N Ha' Hb' Hlo' Hhi') as (_ & _ & _ & ->).
  pose proof (scaled_range a b N Ha Hb Hlo ltac:(lia)) as Hm.
  pose proof (scaled_range a' b' N Ha' Hb' Hlo' ltac:(lia)) as Hm'.
  destruct (exponent_spec a b N Ha Hb ltac:(lia) ltac:(lia)) as [Hl _].
  destruct (exponent_spec a' b' N Ha' Hb' ltac:(lia) ltac:(lia)) as [_ Hu'].
  set (e := PyFloat.exponent a b) in *. set (e' := PyFloat.exponent a' b') in *.
  set (m := PyFloat.scaled a b e) in *. set (m' := PyFloat.scaled a' b' e') in *.
  assert (Hee : e ≤ e').
  { destruct (Z_le_gt_dec e e') as [|Hbad]; [done|exfalso].
    assert (Hpow : 2 ^ (N + (e' + 53)) ≤ 2 ^ (N + (e + 52)))
      by (apply Z.pow_le_mono_r; lia).
    pose proof (pow2_pos (N + (e' + 53)) ltac:(lia)).
    pose proof (pow2_pos N ltac:(lia)).
    set (P := 2 ^ (N + (e' + 53))) in *. set (Q := 2 ^ (N + (e + 52))) in *.
    set (R := 2 ^ N) in *.
    assert (b * b' * Q ≤ a * b' * R) by nia.
    assert (a' * b * R < b * b' * P) by nia.
    assert (a * b' * R ≤ a' * b * R) by nia.
    assert (b * b' * P ≤ b * b' * Q) by nia.
    lia. }
  destruct (decide (e = e')) as [Heq|Hne].
  - pose proof (scaled_mono a b a' b' e Hb Hb' Hle) as Hmm.
    unfold m, m'. rewrite <- Heq.
    apply Z.mul_le_mono_nonneg_r; [|done].
    apply Z.lt_le_incl, pow2_pos. lia.
  - assert (Hpow : 2 * 2 ^ (N + e) ≤ 2 ^ (N + e')).
    { replace (2 * 2 ^ (N + e)) with (2 ^ (1 + (N + e)))
        by (rewrite pow2_add by lia; done).
      apply Z.pow_le_mono_r; lia. }
    pose proof (pow2_pos (N + e) ltac:(lia)).
    change (2 ^ 52) with 4503599627370496 in *.
    change (2 ^ 53) with 9007199254740992 in *.
    set (P := 2 ^ (N + e)) in *. set (Q := 2 ^ (N + e')) in *.
    assert (m * P ≤ 9007199254740992 * P) by nia.
    assert (4503599627370496 * Q ≤ m' * Q) by nia.
    lia.
Qed.

(** [int(x)] of a non-negative float is the floor of its value. *)
Lemma to_int_floor (m e N : Z) :
  0 ≤ N → - N ≤ e →
  PyFloat.to_int (PyFloat.mk false m e) = (m * 2 ^ (N + e)) `div` 2 ^ N.
Proof.
  intros HN He. unfold PyFloat.to_int. cbn [PyFloat.sign PyFloat.mant PyFloat.exp].
  case_decide as Hsign.
  - replace (N + e) with (e + N) by lia. rewrite pow2_add by lia.
    rewrite Z.mul_assoc, Z.div_mul; [done|]. pose proof (pow2_pos N ltac:(lia)). lia.
  - replace (2 ^ N) with (2 ^ (- e) * 2 ^ (N + e))
      by (rewrite <- pow2_add by lia; f_equal; lia).
    rewrite Z.div_mul_cancel_r; [done| |].
    + pose proof (pow2_pos (- e) ltac:(lia)). lia.
    + pose proof (pow2_pos (N + e) ltac:(lia)). lia.
Qed.

Lemma to_int_sign (x : PyFloat.t) :
  PyFloat.to_int x =
  if PyFloat.sign x
  then - PyFloat.to_int (PyFloat.mk false (PyFloat.mant x) (PyFloat.exp x))
  else PyFloat.to_int (PyFloat.mk false (PyFloat.mant x) (PyFloat.exp x)).
Proof. done. Qed.

Lemma to_int_nonneg (m e : Z) : 0 ≤ m → 0 ≤ PyFloat.to_int (PyFloat.mk false m e).
Proof.
  intros Hm. unfold PyFloat.to_int. cbn [PyFloat.sign PyFloat.mant PyFloat.exp].
  case_decide as Hsign.
  - pose proof (pow2_pos e Hsign). nia.
  - apply Z.div_pos; [done|]. apply pow2_pos. lia.
Qed.

Lemma of_ratio_sign (s : bool) (a b : Z) :
  PyFloat.of_ratio s a b =
  PyFloat.mk s (PyFloat.mant (PyFloat.of_ratio false a b))
               (PyFloat.exp (PyFloat.of_ratio false a b)).
Proof. unfold PyFloat.of_ratio. cbv zeta. by repeat case_decide. Qed.

Lemma to_int_of_ratio_zero (b : Z) : PyFloat.to_int (PyFloat.of_ratio false 0 b) = 0.
Proof. done. Qed.

(** [int] of the float made from [a / b], as a floor in units of [2^-N]. *)
Lemma to_int_of_ratio_floor (a b N : Z) :
  0 < a → 0 < b →
  - N ≤ PyFloat.exponent a b → PyFloat.exponent a b + 54 ≤ N →
  PyFloat.to_int (PyFloat.of_ratio false a b)
  = (PyFloat.scaled a b (PyFloat.exponent a b) * 2 ^ (N + PyFloat.exponent a b))
      `div` 2 ^ N.
Proof.
  intros Ha Hb Hlo Hhi.
  destruct (of_ratio_value false a b N Ha Hb Hlo Hhi) as (Hs & _ & He & Hv).
  rewrite to_int_sign, Hs, (to_int_floor _ _ N) by lia. by rewrite Hv.
Qed.

Lemma to_int_of_ratio_nonneg (a b : Z) :
  0 ≤ a → 0 < b → 0 ≤ PyFloat.to_int (PyFloat.of_ratio false a b).
Proof.
  intros Ha Hb. destruct (decide (a = 0)) as [->|Hne]; [done|].
  set (N := Z.abs (PyFloat.exponent a b) + 54).
  destruct (of_ratio_value false a b N ltac:(lia) Hb ltac:(lia) ltac:(lia))
    as (Hs & Hm & _ & _).
  rewrite to_int_sign, Hs. apply to_int_nonneg.
  change (2 ^ 52) with 4503599627370496 in Hm. lia.
Qed.

Lemma to_int_of_ratio_mono (a b a' b' : Z) :
  0 ≤ a → 0 < b → 0 ≤ a' → 0 < b' → a * b' ≤ a' * b →
  PyFloat.to_int (PyFloat.of_ratio false a b)
  ≤ PyFloat.to_int (PyFloat.of_ratio false a' b').
Proof.
  intros Ha Hb Ha' Hb' Hle.
  destruct (decide (a = 0)) as [->|Hne].
  { rewrite to_int_of_ratio_zero. by apply to_int_of_ratio_nonneg. }
  assert (Hpos : 0 < a') by nia.
  set (N := Z.abs (PyFloat.exponent a b) + Z.abs (PyFloat.exponent a' b') + 54).
  pose proof (of_ratio_mono false false a b a' b' N ltac:(lia) Hb Hpos Hb' Hle
                ltac:(lia) ltac:(lia) ltac:(lia) ltac:(lia)) as Hmono.
  destruct (of_ratio_value false a b N ltac:(lia) Hb ltac:(lia) ltac:(lia))
    as (Hs & _ & He & _).
  destruct (of_ratio_value false a' b' N Hpos Hb' ltac:(lia) ltac:(lia))
    as (Hs' & _ & He' & _).
  rewrite (to_int_sign (PyFloat.of_ratio false a b)), Hs.
  rewrite (to_int_sign (PyFloat.of_ratio false a' b')), Hs'.
  rewrite !(to_int_floor _ _ N) by lia.
  apply Z.div_le_mono; [|done]. apply pow2_pos. lia.
Qed.

(** [int] of the float made from [a / b < 2^53] is within one and a half of
    the quotient from below and within a half from above. *)
Lemma to_int_of_ratio_near (a b : Z) :
  0 ≤ a → 0 < b → a < 2 ^ 53 * b →
  - 3 * b < 2 * (b * PyFloat.to_int (PyFloat.of_ratio false a b) - a) ≤ b.
Proof.
  intros Ha Hb Hsmall.
  destruct (decide (a = 0)) as [->|Hne]; [rewrite to_int_of_ratio_zero; lia|].
  set (N := Z.abs (PyFloat.exponent a b) + 54).
  rewrite (to_int_of_ratio_floor a b N) by lia.
  destruct (exponent_spec a b N ltac:(lia) Hb ltac:(lia) ltac:(lia)) as [Hl _].
  pose proof (scaled_near a b (PyFloat.exponent a b) N Hb ltac:(lia)) as Hn.
  set (e := PyFloat.exponent a b) in *. set (m := PyFloat.scaled a b e) in *.
  replace (N + (e + 52)) with ((N + e) + 52) in Hl by lia.
  rewrite pow2_add in Hl by lia.
  pose proof (pow2_pos (N + e) ltac:(lia)) as HU.
  pose proof (pow2_pos N ltac:(lia)) as HR.
  assert (HUR : 2 ^ (N + e) ≤ 2 ^ N).
  { destruct (Z_le_gt_dec e 0) as [|Hbad]; [apply Z.pow_le_mono_r; lia|exfalso].
    assert (Hpow : 2 * 2 ^ N ≤ 2 ^ (N + e)).
    { replace (2 * 2 ^ N) with (2 ^ (1 + N)) by (rewrite pow2_add by lia; done).
      apply Z.pow_le_mono_r; lia. }
    change (2 ^ 53) with 9007199254740992 in Hsmall.
    change (2 ^ 52) with 4503599627370496 in Hl.
    set (U := 2 ^ (N + e)) in *. set (R := 2 ^ N) in *.
    assert (a * R < 9007199254740992 * b * R) by nia.
    assert (b * (2 * R) ≤ b * U) by nia.
    lia. }
  pose proof (Z.mul_div_le (m * 2 ^ (N + e)) (2 ^ N) HR) as Hfl.
  pose proof (Z.mul_succ_div_gt (m * 2 ^ (N + e)) (2 ^ N) HR) as Hfu.
  set (U := 2 ^ (N + e)) in *. set (R := 2 ^ N) in *.
  set (mu := (m * U) `div` R) in *.
  assert (HbU : b * U ≤ b * R) by nia.
  assert (H1 : b * (R * mu) ≤ b * (m * U)) by nia.
  assert (H2 : b * (m * U) < b * (R * Z.succ mu)) by nia.
  split.
  - destruct (Z_le_gt_dec (2 * (b * mu - a)) (- 3 * b)) as [Hbad|]; [exfalso|lia].
    assert (2 * (b * mu - a) * R ≤ - 3 * b * R) by nia. lia.
  - destruct (Z_le_gt_dec (2 * (b * mu - a)) b) as [|Hbad]; [done|exfalso].
    assert (b * R < 2 * (b * mu - a) * R) by nia. lia.
Qed.

Lemma of_int_million : PyFloat.of_int 1000000 = PyFloat.mk false 8589934592000000 (-33).
Proof. by vm_compute. Qed.

(** [t * 1000000] is the float made from a quotient [a / b] that is
    exactly a million times the magnitude of [t]. *)
Lemma mul_million (t : PyFloat.t) :
  ∃ a b : Z,
    PyFloat.mul t (PyFloat.of_int 1000000) = PyFloat.of_ratio (PyFloat.sign t) a b
    ∧ 0 < b
    ∧ (0 ≤ PyFloat.mant t → 0 ≤ a)
    ∧ a * 2 ^ Z.max 0 (- PyFloat.exp t)
      = b * (1000000 * (PyFloat.mant t * 2 ^ Z.max 0 (PyFloat.exp t))).
Proof.
  rewrite of_int_million. unfold PyFloat.mul.
  cbn [PyFloat.sign PyFloat.mant PyFloat.exp]. rewrite xorb_false_r.
  set (m := PyFloat.mant t). set (e := PyFloat.exp t).
  case_decide as Hsign.
  - eexists _, 1. split; [done|]. split; [lia|]. split.
    + intros Hm. pose proof (pow2_pos _ Hsign). nia.
    + rewrite Z.max_l, Z.max_r by lia.
      replace e with (33 + (e + -33)) at 2 by lia. rewrite (pow2_add 33) by lia.
      change (2 ^ 33) with 8589934592. change (2 ^ 0) with 1. lia.
  - eexists _, _. split; [done|]. split; [apply pow2_pos; lia|]. split.
    + intros Hm. lia.
    + assert (Hs : 8589934592 * 2 ^ Z.max 0 (- e) = 2 ^ (- (e + -33)) * 2 ^ Z.max 0 e).
      { change 8589934592 with (2 ^ 33). rewrite <- !pow2_add by lia. f_equal. lia. }
      set (D := 2 ^ Z.max 0 (- e)) in *. set (P := 2 ^ Z.max 0 e) in *.
      set (B := 2 ^ (- (e + -33))) in *.
      replace (m * 8589934592000000 * D) with (m * 1000000 * (8589934592 * D)) by lia.
      rewrite Hs. lia.
Qed.

(** The sign of the reading carries over to the count. *)
Lemma microseconds_sign (t : PyFloat.t) :
  microseconds t =
  if PyFloat.sign t
  then - microseconds (PyFloat.mk false (PyFloat.mant t) (PyFloat.exp t))
  else microseconds (PyFloat.mk false (PyFloat.mant t) (PyFloat.exp t)).
Proof.
  unfold microseconds. rewrite of_int_million. unfold PyFloat.mul.
  cbn [PyFloat.sign PyFloat.mant PyFloat.exp]. rewrite !xorb_false_r.
  case_decide; rewrite of_ratio_sign, to_int_sign;
    cbn [PyFloat.sign PyFloat.mant PyFloat.exp];
    rewrite (to_int_sign (PyFloat.of_ratio false _ _)), (of_ratio_sign false);
    cbn [PyFloat.sign PyFloat.mant PyFloat.exp]; by destruct (PyFloat.sign t).
Qed.

Lemma microseconds_nonneg (m e : Z) : 0 ≤ m → 0 ≤ microseconds (PyFloat.mk false m e).
Proof.
  intros Hm. unfold microseconds.
  destruct (mul_million (PyFloat.mk false m e)) as (a & b & -> & Hb & Ha & _).
  apply to_int_of_ratio_nonneg; [by apply Ha|done].
Qed.

Lemma microseconds_zero (e : Z) : microseconds (PyFloat.mk false 0 e) = 0.
Proof.
  unfold microseconds. rewrite of_int_million. unfold PyFloat.mul.
  cbn [PyFloat.sign PyFloat.mant PyFloat.exp]. by case_decide.
Qed.

(** On non-negative readings the count is monotone in the reading. *)
Lemma microseconds_magnitude_mono (m e m' e' : Z) :
  0 ≤ m → 0 ≤ m' →
  m * 2 ^ Z.max 0 e * 2 ^ Z.max 0 (- e') ≤ m' * 2 ^ Z.max 0 e' * 2 ^ Z.max 0 (- e) →
  microseconds (PyFloat.mk false m e) ≤ microseconds (PyFloat.mk false m' e').
Proof.
  intros Hm Hm' Hle. unfold microseconds.
  destruct (mul_million (PyFloat.mk false m e)) as (a & b & -> & Hb & Ha & Hv).
  destruct (mul_million (PyFloat.mk false m' e')) as (a' & b' & -> & Hb' & Ha' & Hv').
  cbn [PyFloat.sign PyFloat.mant PyFloat.exp] in *.
  apply to_int_of_ratio_mono; [by apply Ha|done|by apply Ha'|done|].
  pose proof (pow2_pos (Z.max 0 (- e)) ltac:(lia)) as HD.
  pose proof (pow2_pos (Z.max 0 (- e')) ltac:(lia)) as HD'.
  set (D := 2 ^ Z.max 0 (- e)) in *. set (D' := 2 ^ Z.max 0 (- e')) in *.
  set (P := m * 2 ^ Z.max 0 e) in *. set (P' := m' * 2 ^ Z.max 0 e') in *.
  assert (Hbb : b * b' * (1000000 * (P * D')) ≤ b * b' * (1000000 * (P' * D))).
  { apply Z.mul_le_mono_nonneg_l; [apply Z.mul_nonneg_nonneg; lia|lia]. }
  assert (Hfin : a * b' * (D * D') ≤ a' * b * (D * D')).
  { replace (a * b' * (D * D')) with (a * D * (b' * D')) by lia.
    replace (a' * b * (D * D')) with (a' * D' * (b * D)) by lia.
    rewrite Hv, Hv'. lia. }
  apply (Z.mul_le_mono_pos_r _ _ (D * D')); [|done].
  by apply Z.mul_pos_pos.
Qed.

(** The count of microseconds is monotone in the reading of the clock. *)
Lemma microseconds_mono (t t' : PyFloat.t) :
  PyFloat.wf t → PyFloat.wf t' → PyFloat.le t t' →
  microseconds t ≤ microseconds t'.
Proof.
  unfold PyFloat.wf, PyFloat.le, PyFloat.num, PyFloat.den. intros Hm Hm' Hle.
  rewrite (microseconds_sign t), (microseconds_sign t').
  pose proof (microseconds_nonneg (PyFloat.mant t) (PyFloat.exp t) Hm) as H0.
  pose proof (microseconds_nonneg (PyFloat.mant t') (PyFloat.exp t') Hm') as H0'.
  pose proof (pow2_pos (Z.max 0 (PyFloat.exp t)) ltac:(lia)) as Hp.
  pose proof (pow2_pos (Z.max 0 (PyFloat.exp t')) ltac:(lia)) as Hp'.
  pose proof (pow2_pos (Z.max 0 (- PyFloat.exp t)) ltac:(lia)) as Hd.
  pose proof (pow2_pos (Z.max 0 (- PyFloat.exp t')) ltac:(lia)) as Hd'.
  set (P := 2 ^ Z.max 0 (PyFloat.exp t)) in *.
  set (P' := 2 ^ Z.max 0 (PyFloat.exp t')) in *.
  set (D := 2 ^ Z.max 0 (- PyFloat.exp t)) in *.
  set (D' := 2 ^ Z.max 0 (- PyFloat.exp t')) in *.
  destruct (PyFloat.sign t), (PyFloat.sign t').
  - assert (microseconds (PyFloat.mk false (PyFloat.mant t') (PyFloat.exp t'))
            ≤ microseconds (PyFloat.mk false (PyFloat.mant t) (PyFloat.exp t))); [|lia].
    apply microseconds_magnitude_mono; [done|done|]. fold P P' D D'. lia.
  - lia.
  - assert (0 ≤ PyFloat.mant t * P * D') by (repeat apply Z.mul_nonneg_nonneg; lia).
    assert (0 ≤ PyFloat.mant t' * P' * D) by (repeat apply Z.mul_nonneg_nonneg; lia).
    assert (HPD : 0 < P * D') by (by apply Z.mul_pos_pos).
    assert (HPD' : 0 < P' * D) by (by apply Z.mul_pos_pos).
    assert (PyFloat.mant t = 0) as Hz by nia.
    assert (PyFloat.mant t' = 0) as Hz' by nia.
    rewrite Hz, Hz', !microseconds_zero. done.
  - apply microseconds_magnitude_mono; [done|done|]. by fold P P' D D'.
Qed.

(** For a non-negative reading [p / d] seconds below [2^53] microseconds,
    the count is above [1000000 * p / d - 3/2] and at most
    [1000000 * p / d + 1/2]. *)
Lemma microseconds_near (m e : Z) :
  0 ≤ m →
  1000000 * (m * 2 ^ Z.max 0 e) < 2 ^ 53 * 2 ^ Z.max 0 (- e) →
  - 3 * 2 ^ Z.max 0 (- e)
  < 2 * (2 ^ Z.max 0 (- e) * microseconds (PyFloat.mk false m e)
         - 1000000 * (m * 2 ^ Z.max 0 e))
  ≤ 2 ^ Z.max 0 (- e).
Proof.
  intros Hm Hsmall. unfold microseconds.
  destruct (mul_million (PyFloat.mk false m e)) as (a & b & -> & Hb & Ha & HaD).
  cbn [PyFloat.sign PyFloat.mant PyFloat.exp] in *. specialize (Ha Hm).
  pose proof (pow2_pos (Z.max 0 (- e)) ltac:(lia)) as HD.
  set (D := 2 ^ Z.max 0 (- e)) in *. set (P := m * 2 ^ Z.max 0 e) in *.
  assert (Hsmall' : a < 2 ^ 53 * b).
  { change (2 ^ 53) with 9007199254740992 in *.
    destruct (Z_lt_ge_dec a (9007199254740992 * b)) as [|Hbad]; [done|exfalso].
    assert (9007199254740992 * b * D ≤ a * D) by nia.
    assert (b * (1000000 * P) < b * (9007199254740992 * D)) by nia. lia. }
  pose proof (to_int_of_ratio_near a b Ha Hb Hsmall') as Hnear.
  set (mu := PyFloat.to_int (PyFloat.of_ratio false a b)) in *.
  split.
  - destruct (Z_le_gt_dec (2 * (D * mu - 1000000 * P)) (- 3 * D)) as [Hbad|]; [exfalso|lia].
    assert (b * (2 * (D * mu - 1000000 * P)) ≤ b * (- 3 * D)) by nia.
    assert (D * (- 3 * b) < D * (2 * (b * mu - a))) by nia.
    lia.
  - destruct (Z_le_gt_dec (2 * (D * mu - 1000000 * P)) D) as [|Hbad]; [done|exfalso].
    assert (b * D < b * (2 * (D * mu - 1000000 * P))) by nia.
    assert (D * (2 * (b * mu - a)) ≤ D * b) by nia.
    lia.
Qed.

(** The count is the reading in microseconds: for a reading of magnitude
    below [2^53] microseconds it differs from a million times the reading
    by less than one and a half. *)
Lemma microseconds_accurate (t : PyFloat.t) :
  PyFloat.wf t →
  1000000 * Z.abs (PyFloat.num t) < 2 ^ 53 * PyFloat.den t →
  Z.abs (2 * (PyFloat.den t * microseconds t - 1000000 * PyFloat.num t))
  < 3 * PyFloat.den t.
Proof.
  unfold PyFloat.wf, PyFloat.num, PyFloat.den. intros Hm Hsmall.
  rewrite (microseconds_sign t).
  pose proof (pow2_pos (Z.max 0 (PyFloat.exp t)) ltac:(lia)) as Hp.
  assert (Hnn : 0 ≤ PyFloat.mant t * 2 ^ Z.max 0 (PyFloat.exp t))
    by (apply Z.mul_nonneg_nonneg; lia).
  assert (Hmag : 1000000 * (PyFloat.mant t * 2 ^ Z.max 0 (PyFloat.exp t))
                 < 2 ^ 53 * 2 ^ Z.max 0 (- PyFloat.exp t)).
  { destruct (PyFloat.sign t); [|lia].
    rewrite Z.mul_opp_l, Z.abs_opp in Hsmall. lia. }
  pose proof (microseconds_near _ _ Hm Hmag) as Hnear.
  set (mu := microseconds (PyFloat.mk false (PyFloat.mant t) (PyFloat.exp t))) in *.
  set (D := 2 ^ Z.max 0 (- PyFloat.exp t)) in *.
  set (P := PyFloat.mant t * 2 ^ Z.max 0 (PyFloat.exp t)) in *.
  destruct (PyFloat.sign t).
  - replace (- PyFloat.mant t * 2 ^ Z.max 0 (PyFloat.exp t)) with (- P) by (unfold P; lia).
    lia.
  - lia.
Qed.

(** ** The clock and the timer *)

(** C6, as stated, fails: [get_time_microseconds] reads [time.time()], the
    wall clock, and nothing makes two successive readings ordered. With a
    clock set back from 2.0 s to 1.0 s the readings are 2000000 and then
    1000000, and the timer's duration is -1000000. *)
Lemma clock_can_run_backwards :
  ¬ (∀ (w w1 w2 : World) (t1 t2 : Z),
       get_time_microseconds w = (Some t1, w1) →
       get_time_microseconds w1 = (Some t2, w2) →
       t1 ≤ t2) ∧
  ¬ (∀ (w w1 w2 : World) (timer timer1 timer2 : BenchmarkTimer.t) (d : Z),
       BenchmarkTimer.start timer w = (Some timer1, w1) →
       BenchmarkTimer.end_ timer1 w1 = (Some (d, timer2), w2) →
       0 ≤ d).
Proof.
  split; intros H.
  - specialize (H (mkWorld backward_clock 0 []) _ _ _ _ eq_refl eq_refl).
    vm_compute in H. by apply H.
  - specialize (H (mkWorld backward_clock 0 []) _ _ BenchmarkTimer.init _ _ _
                  eq_refl eq_refl).
    vm_compute in H. by apply H.
Qed.

(** The order on floats agrees with the Standard Library's comparison of
    binary64 values. *)
Example le_binary64 :
  let xs := [-3000000; -1; 0; 1; 1499999; 1500000; 2250000;
             1762190000123456; 1762190000123457] in
  (λ a, (λ b, bool_decide (PyFloat.le (PyFloat.int_truediv a 1000000)
                                      (PyFloat.int_truediv b 1000000))) <$> xs) <$> xs
  = (λ a, (λ b, SFleb (PyFloat.to_spec (PyFloat.int_truediv a 1000000))
                      (PyFloat.to_spec (PyFloat.int_truediv b 1000000))) <$> xs) <$> xs.
Proof. vm_compute. reflexivity. Qed.

(** C6 (amended). [get_time_microseconds] returns an integer count of
    microseconds, [int(time.time() * 1000000)], of one reading of the wall
    clock: for a reading of magnitude below [2^53] microseconds it differs
    from a million times the reading by less than one and a half. The wall
    clock need not be monotonic. A timer started and ended holds the two
    counts and its duration is their difference; whenever the clock does
    not run backwards between the two reads, the second count is at least
    the first and the duration is [>= 0]. *)
Theorem timer_duration (w : World) (timer : BenchmarkTimer.t) :
  PyFloat.wf (clock w (reads w)) →
  PyFloat.wf (clock w (S (reads w))) →
  let r1 := clock w (reads w) in
  let r2 := clock w (S (reads w)) in
  ∃ (w1 w2 : World) (timer1 timer2 : BenchmarkTimer.t),
    get_time_microseconds w = (Some (microseconds r1), w1) ∧
    get_time_microseconds w1 = (Some (microseconds r2), w2) ∧
    BenchmarkTimer.start timer w = (Some timer1, w1) ∧
    BenchmarkTimer.end_ timer1 w1 = (Some (BenchmarkTimer.duration timer2, timer2), w2) ∧
    BenchmarkTimer.start_time timer2 = microseconds r1 ∧
    BenchmarkTimer.end_time timer2 = microseconds r2 ∧
    BenchmarkTimer.duration timer2
    = BenchmarkTimer.end_time timer2 - BenchmarkTimer.start_time timer2 ∧
    (∀ r : PyFloat.t, r = r1 ∨ r = r2 →
       1000000 * Z.abs (PyFloat.num r) < 2 ^ 53 * PyFloat.den r →
       Z.abs (2 * (PyFloat.den r * microseconds r - 1000000 * PyFloat.num r))
       < 3 * PyFloat.den r) ∧
    (PyFloat.le r1 r2 →
       microseconds r1 ≤ microseconds r2 ∧ 0 ≤ BenchmarkTimer.duration timer2).
Proof.
  intros Hwf1 Hwf2 r1 r2. destruct w as [c n out], timer as [s e d].
  cbn [clock reads] in *.
  eexists _, _, _, _. split_and!; try reflexivity.
  - intros r [->| ->]; by apply microseconds_accurate.
  - intros Hle. pose proof (microseconds_mono r1 r2 Hwf1 Hwf2 Hle) as Hmono.
    split; [done|]. subst r1 r2.
    cbn [BenchmarkTimer.duration BenchmarkTimer.start_time clock reads]. lia.
Qed.

Lemma timer_duration_witness :
  let w := mkWorld forward_clock 0 [] in
  PyFloat.wf (clock w (reads w)) ∧
  PyFloat.wf (clock w (S (reads w))) ∧
  PyFloat.le (forward_clock 0) (forward_clock 1) ∧
  ∃ (w1 w2 : World) (timer1 timer2 : BenchmarkTimer.t),
    BenchmarkTimer.start BenchmarkTimer.init w = (Some timer1, w1) ∧
    BenchmarkTimer.end_ timer1 w1 = (Some (BenchmarkTimer.duration timer2, timer2), w2) ∧
    BenchmarkTimer.start_time timer2 = microseconds (forward_clock 0) ∧
    BenchmarkTimer.end_time timer2 = microseconds (forward_clock 1) ∧
    0 ≤ BenchmarkTimer.duration timer2.
Proof.
  intros w.
  assert (Hwf1 : PyFloat.wf (clock w (reads w))) by (by vm_compute).
  assert (Hwf2 : PyFloat.wf (clock w (S (reads w)))) by (by vm_compute).
  assert (Hle : PyFloat.le (forward_clock 0) (forward_clock 1)) by (by vm_compute).
  split; [exact Hwf1|]. split; [exact Hwf2|]. split; [exact Hle|].
  destruct (timer_duration w BenchmarkTimer.init Hwf1 Hwf2)
    as (w1 & w2 & timer1 & timer2 & _ & _ & Hstart & Hend & Hs & He & _ & _ & Hmono).
  exists w1, w2, timer1, timer2.
  split; [exact Hstart|]. split; [exact Hend|]. split; [exact Hs|]. split; [exact He|].
  exact (proj2 (Hmono Hle)).
Defined.
